(** * databox-go: the push client, embedded and verified

    A shallow embedding of [databox.go]: the KPI record and its
    serialisation ([ToJSONData], [serializeKPIs]), the two request helpers
    ([postRequest], [getRequest]) and the operations built on them
    ([PushCtx], [InsertAll], [LastPushesCtx], [LastPushCtx]).

    Conventions of the embedding.
    - A Go [map[string]T] is a [gmap string T]; the nil map and the empty
      map are both [∅], except for the [Meta] field of [KPIWrap] and the
      [Data] slice, where [encoding/json] tells nil from empty and the
      fields are therefore [option]s ([None] is Go's nil).
    - A Go function returning [(T, error)] returns a pair [T * option error];
      [None] is the nil error.
    - A [range] over a map visits the entries in an order Go leaves
      unspecified: the loops of [ToJSONData] take the visiting order as an
      explicit argument, constrained to be a permutation of the entries.
    - [float32] and [float64] values are IEEE 754 data ([spec_float]); the
      decimal text [strconv] prints for a finite float is a parameter of
      the development.
    - Pointers received as arguments ([c], [kpi], [c.HTTPClient]) are valid,
      as they are after [NewClient], and a [context.Context] is never nil,
      as package [context] requires. *)

From Stdlib Require Import ZArith SpecFloat Ascii String.
From stdpp Require Import gmap strings list fin_maps pretty sorting.

Open Scope string_scope.
Set Warnings "-register-all".

(** ** Go values *)

(** IEEE 754 data: signed zeros, infinities, NaN, or sign, mantissa and
    exponent of a finite number. *)
Definition float32 : Type := spec_float.
Definition float64 : Type := spec_float.

(** The dynamic content of an [interface{}]: what a caller can store in
    [KPI.Attributes] and what [ToJSONData] stores itself.  [VUnsupported]
    stands for the Go values [encoding/json] refuses (channels, functions,
    complex numbers); its argument is the Go type's name. *)
Inductive value : Type :=
  | VNil
  | VBool (b : bool)
  | VInt (n : Z)
  | VFloat32 (f : float32)
  | VFloat64 (f : float64)
  | VString (s : string)
  | VSlice (l : list value)
  | VMap (m : gmap string value)
  | VUnsupported (ty : string).

(** ** Errors *)

(** Go's [error] values, by the concrete type behind the interface. *)
Inductive error : Type :=
  | errorString (s : string)                 (* errors.New(s) *)
  | wrapError (msg : string) (err : error)   (* fmt.Errorf("...%w", err) *)
  | UnsupportedTypeError (ty : string)       (* encoding/json, Marshal *)
  | UnsupportedValueError (str : string)     (* encoding/json, Marshal *)
  | SyntaxError (msg : string)               (* encoding/json, Unmarshal *)
  | UnmarshalTypeError (val ty strct field : string) (* encoding/json, Unmarshal *)
  | urlError (op url : string) (msg : string) (* net/http, net/url *)
  | readError (msg : string).                (* io, from Body.Read *)

(** The [Error()] method. *)
Definition Error (e : error) : string :=
  match e with
  | errorString s => s
  | wrapError msg _ => msg
  | UnsupportedTypeError ty => "json: unsupported type: " +:+ ty
  | UnsupportedValueError str => "json: unsupported value: " +:+ str
  | SyntaxError msg => msg
  | UnmarshalTypeError val ty strct field =>
      if decide (strct = "" ∧ field = "")
      then "json: cannot unmarshal " +:+ val +:+ " into Go value of type " +:+ ty
      else "json: cannot unmarshal " +:+ val +:+ " into Go struct field "
           +:+ strct +:+ "." +:+ field +:+ " of type " +:+ ty
  | urlError op url msg => op +:+ " " +:+ url +:+ ": " +:+ msg
  | readError msg => msg
  end.

(** [errors.New]. *)
Definition errors_New (text : string) : error := errorString text.

(** [fmt.Errorf(prefix + "%w", err)]: the message is the formatted text, the
    wrapped error stays reachable through [Unwrap]. *)
Definition fmt_Errorf_w (prefix : string) (err : error) : error :=
  wrapError (prefix +:+ Error err) err.

(** Outcome of a library call that yields a value or an error, never both. *)
Inductive result (A : Type) : Type :=
  | Ok (a : A)
  | Err (e : error).
Arguments Ok {A} a.
Arguments Err {A} e.

(** ** The data model of [databox.go] *)

Definition DateFormat : string := "2006-01-02".
Definition DateTimeFormat : string := "2006-01-02 15:04:05".
Definition DateTimeTZFormat : string := "2006-01-02 15:04:05-07:00".

Definition apiURL : string := "https://push.databox.com".
Definition clientVersion : string := "2.1.0".

(** Field names carry the struct's name: Go's structs share [Date], [Body]
    and [Metrics], and [Type] is reserved. *)
Record KPI : Type := mkKPI {
  KPI_Key : string;
  KPI_Value : float32;
  KPI_Metrics : gmap string float32;
  KPI_Date : string;
  KPI_Unit : string;
  KPI_Attributes : gmap string value;
}.

Record KPIWrap : Type := mkKPIWrap {
  KPIWrap_Data : option (list (gmap string value));   (* `json:"data"` *)
  KPIWrap_Meta : option (gmap string value);          (* `json:"meta,omitempty"` *)
}.

Record ResponseStatus : Type := mkResponseStatus {
  ResponseStatus_ID : string;        (* `json:"id"` *)
  ResponseStatus_Type : string;      (* `json:"type"` *)
  ResponseStatus_Message : string;   (* `json:"message"` *)
}.

Record PushRequest : Type := mkPushRequest {
  PushRequest_Date : string;                 (* `json:"date"` *)
  PushRequest_Body : KPIWrap;                (* `json:"body"` *)
  PushRequest_Errors : option (list string); (* `json:"errors"` *)
}.

Record PushResponse : Type := mkPushResponse {
  PushResponse_Date : string;          (* `json:"date"` *)
  PushResponse_Body : ResponseStatus;  (* `json:"body"` *)
}.

Record LastPush : Type := mkLastPush {
  LastPush_Request : PushRequest;            (* `json:"request"` *)
  LastPush_Response : PushResponse;          (* `json:"response"` *)
  LastPush_Metrics : option (list string);   (* `json:"metrics"` *)
}.

(** Zero values, [ResponseStatus{}] and [LastPush{}]. *)
Definition zeroResponseStatus : ResponseStatus := mkResponseStatus "" "" "".
Definition zeroKPIWrap : KPIWrap := mkKPIWrap None None.
Definition zeroLastPush : LastPush :=
  mkLastPush (mkPushRequest "" zeroKPIWrap None)
             (mkPushResponse "" zeroResponseStatus) None.

(** ** [ToJSONData] *)

(** [l] is an order in which a [range] over [m] can visit its entries. *)
Definition range_order {V} (m : gmap string V) (l : list (string * V)) : Prop :=
  l ≡ₚ map_to_list m.

(** The body of [ToJSONData], the two [range] loops visiting the entries in
    the orders [attributes] and [metrics]. *)
Definition ToJSONData_ranged (attributes : list (string * value))
    (metrics : list (string * float32)) (kpi : KPI) : gmap string value :=
  let payload : gmap string value := ∅ in
  (* store attributes first so it can't overwrite other values. *)
  let payload :=
    foldl (λ payload '(key, value), <[key := value]> payload) payload attributes in
  let payload :=
    foldl (λ payload '(key, value), <["$" +:+ key := VFloat32 value]> payload)
          payload metrics in
  let payload :=
    if decide (KPI_Key kpi ≠ "")
    then <["$" +:+ KPI_Key kpi := VFloat32 (KPI_Value kpi)]> payload else payload in
  let payload :=
    if decide (KPI_Date kpi ≠ "")
    then <["date" := VString (KPI_Date kpi)]> payload else payload in
  let payload :=
    if decide (KPI_Unit kpi ≠ "")
    then <["unit" := VString (KPI_Unit kpi)]> payload else payload in
  payload.

(** [ToJSONData] with the loops run in the order [map_to_list] lists the
    entries; [ToJSONData_any_order] shows the order is immaterial. *)
Definition ToJSONData (kpi : KPI) : gmap string value :=
  ToJSONData_ranged (map_to_list (KPI_Attributes kpi))
                    (map_to_list (KPI_Metrics kpi)) kpi.

(** The key a metric is stored under. *)
Definition dollar (key : string) : string := "$" +:+ key.

(** The common shape of the two loops: every visited entry is stored under
    [key] of its name, its value boxed by [box]. *)
Definition store_entries {V} (key : string → string) (box : V → value)
    (entries : list (string * V)) (payload : gmap string value) : gmap string value :=
  foldl (λ payload kv, <[key kv.1 := box kv.2]> payload) payload entries.

(** What the three conditional stores after the loops do to [payload]. *)
Definition store_fields (kpi : KPI) (payload : gmap string value) : gmap string value :=
  let payload :=
    if decide (KPI_Key kpi ≠ "")
    then <[dollar (KPI_Key kpi) := VFloat32 (KPI_Value kpi)]> payload else payload in
  let payload :=
    if decide (KPI_Date kpi ≠ "")
    then <["date" := VString (KPI_Date kpi)]> payload else payload in
  if decide (KPI_Unit kpi ≠ "")
  then <["unit" := VString (KPI_Unit kpi)]> payload else payload.

(** The name of the metric stored under [k]: [k] without its leading [$]. *)
Definition strip_dollar (k : string) : option string :=
  match k with
  | String c k' => if decide (c = "$"%char) then Some k' else None
  | EmptyString => None
  end.

(** The entry of the output at [k], read off the record: the latest store
    that writes [k] decides. *)
Definition output_at (kpi : KPI) (k : string) : option value :=
  if decide (KPI_Unit kpi ≠ "" ∧ k = "unit") then Some (VString (KPI_Unit kpi))
  else if decide (KPI_Date kpi ≠ "" ∧ k = "date") then Some (VString (KPI_Date kpi))
  else if decide (KPI_Key kpi ≠ "" ∧ k = dollar (KPI_Key kpi))
       then Some (VFloat32 (KPI_Value kpi))
  else match strip_dollar k ≫= (KPI_Metrics kpi !!.) with
       | Some v => Some (VFloat32 v)
       | None => KPI_Attributes kpi !! k
       end.

(** ** JSON documents *)

(** The syntax of a JSON text.  A number keeps its literal; the members of
    an object are in the order they are written. *)
Inductive json : Type :=
  | JNull
  | JBool (b : bool)
  | JNum (lit : string)
  | JStr (s : string)
  | JArr (elems : list json)
  | JObj (members : list (string * json)).

(** The value of a member, the last one written if the name is repeated. *)
Fixpoint lookup_member (name : string) (members : list (string * json)) : option json :=
  match members with
  | [] => None
  | (k, v) :: members =>
      match lookup_member name members with
      | Some v' => Some v'
      | None => if decide (k = name) then Some v else None
      end
  end.

Definition member (name : string) (j : json) : option json :=
  match j with
  | JObj members => lookup_member name members
  | _ => None
  end.

(** The names of the members of an object. *)
Definition member_names (j : json) : list string :=
  match j with
  | JObj members => members.*1
  | _ => []
  end.

Definition result_bind {A B} (r : result A) (k : A → result B) : result B :=
  match r with
  | Ok a => k a
  | Err e => Err e
  end.

Definition result_map {A B} (f : A → B) (r : result A) : result B :=
  result_bind r (λ a, Ok (f a)).

(** The results of a sequence of steps: all the values, or the first error. *)
Fixpoint collect {A} (rs : list (result A)) : result (list A) :=
  match rs with
  | [] => Ok []
  | r :: rs => result_bind r (λ a, result_map (cons a) (collect rs))
  end.

(** The same for the members of an object. *)
Fixpoint collect_members {A} (rs : list (string * result A)) : result (list (string * A)) :=
  match rs with
  | [] => Ok []
  | (k, r) :: rs =>
      result_bind r (λ a, result_map (cons (k, a)) (collect_members rs))
  end.

(** [encoding/json] writes the entries of a map sorted by key, bytewise. *)
Definition key_le {A} (a b : string * A) : Prop := String.leb a.1 b.1.

Global Instance key_le_dec {A} (a b : string * A) : Decision (key_le a b).
Proof. unfold key_le. apply _. Defined.

Definition sorted_entries {A} (m : gmap string A) : list (string * A) :=
  merge_sort key_le (map_to_list m).

Section Marshal.
(** The decimal text [encoding/json] writes for a finite float of the
    given bit size: [strconv.AppendFloat] in the format the encoder picks,
    with its exponent clean-up. *)
Variable FormatFloat : spec_float → nat → string.

(** [floatEncoder.encode]: NaN and the infinities are refused. *)
Definition floatEncoder (bits : nat) (f : spec_float) : result json :=
  match f with
  | S754_nan => Err (UnsupportedValueError "NaN")
  | S754_infinity false => Err (UnsupportedValueError "+Inf")
  | S754_infinity true => Err (UnsupportedValueError "-Inf")
  | _ => Ok (JNum (FormatFloat f bits))
  end.

(** The encoder [json.Marshal] runs on the content of an [interface{}]. *)
Fixpoint encodeValue (v : value) : result json :=
  match v with
  | VNil => Ok JNull
  | VBool b => Ok (JBool b)
  | VInt n => Ok (JNum (pretty n))
  | VFloat32 f => floatEncoder 32 f
  | VFloat64 f => floatEncoder 64 f
  | VString s => Ok (JStr s)
  | VSlice l => result_map JArr (collect (encodeValue <$> l))
  | VMap m =>
      result_map JObj (collect_members (sorted_entries (encodeValue <$> m)))
  | VUnsupported ty => Err (UnsupportedTypeError ty)
  end.

(** ... and on a non-nil [map[string]interface{}]. *)
Definition encodeMap (m : gmap string value) : result json :=
  result_map JObj (collect_members (sorted_entries (encodeValue <$> m))).

(** The struct encoder of [KPIWrap]: the fields in the order they are
    declared; a nil slice is [null]; [omitempty] leaves [meta] out when
    the map is nil or has no entry. *)
Definition encodeKPIWrap (wrap : KPIWrap) : result json :=
  result_bind
    match KPIWrap_Data wrap with
    | None => Ok JNull
    | Some data => result_map JArr (collect (encodeMap <$> data))
    end (λ data,
  result_bind
    match KPIWrap_Meta wrap with
    | None => Ok []
    | Some meta =>
        if decide (size meta = 0) then Ok []
        else result_map (λ j, [("meta", j)]) (encodeMap meta)
    end (λ meta,
  Ok (JObj (("data", data) :: meta)))).
End Marshal.

(** ** JSON texts: writing *)

Definition dquote : ascii := ascii_of_nat 34.
Definition backslash : ascii := ascii_of_nat 92.

Definition hex_digit (n : N) : ascii :=
  ascii_of_N (if (n <? 10)%N then 48 + n else 87 + n).

(** [htmlSafeSet]: the ASCII bytes the encoder copies as they are. *)
Definition htmlSafe (c : ascii) : bool :=
  let n := N_of_ascii c in
  (32 <=? n)%N && (n <? 128)%N
  && negb (bool_decide (n ∈ [34; 38; 60; 62; 92]%N)).

(** One byte of a string, as the encoder writes it. *)
Definition encode_byte (c : ascii) : string :=
  let n := N_of_ascii c in
  if (128 <=? n)%N || htmlSafe c then String c ""
  else if bool_decide (n = 34%N) then String backslash (String dquote "")
  else if bool_decide (n = 92%N) then String backslash (String backslash "")
  else if bool_decide (n = 10%N) then String backslash "n"
  else if bool_decide (n = 13%N) then String backslash "r"
  else if bool_decide (n = 9%N) then String backslash "t"
  else String backslash ("u00" +:+ String (hex_digit (n / 16)) (String (hex_digit (n mod 16)) "")).

(** [encodeState.string] with HTML escaping on, as [json.Marshal] runs it.
    The text is taken to be valid UTF-8; U+2028 and U+2029 are escaped. *)
Fixpoint encode_chars (s : string) : string :=
  match s with
  | "" => ""
  | String c s' =>
      match s' with
      | String c1 (String c2 s'') =>
          if bool_decide (N_of_ascii c = 226%N ∧ N_of_ascii c1 = 128%N
                          ∧ (N_of_ascii c2 = 168%N ∨ N_of_ascii c2 = 169%N))
          then String backslash ("u202" +:+ String (hex_digit (N_of_ascii c2 mod 16)) "")
               +:+ encode_chars s''
          else encode_byte c +:+ encode_chars s'
      | _ => encode_byte c +:+ encode_chars s'
      end
  end.

Definition quote (s : string) : string :=
  String dquote (encode_chars s) +:+ String dquote "".

Fixpoint join (sep : string) (parts : list string) : string :=
  match parts with
  | [] => ""
  | [x] => x
  | x :: parts => x +:+ sep +:+ join sep parts
  end.

(** The bytes of a document, compact as [json.Marshal] writes them. *)
Fixpoint render (j : json) : string :=
  match j with
  | JNull => "null"
  | JBool true => "true"
  | JBool false => "false"
  | JNum lit => lit
  | JStr s => quote s
  | JArr elems => "[" +:+ join "," (render <$> elems) +:+ "]"
  | JObj members =>
      "{" +:+ join "," ((λ kv, quote kv.1 +:+ ":" +:+ render kv.2) <$> members) +:+ "}"
  end.

(** [json.Marshal(wrap)]. *)
Definition json_Marshal (FormatFloat : spec_float → nat → string) (wrap : KPIWrap)
    : string * option error :=
  match encodeKPIWrap FormatFloat wrap with
  | Ok doc => (render doc, None)
  | Err e => ("", Some e)
  end.

(** ** [serializeKPIs] *)

(** [append(wrap.Data, data)]. *)
Definition append_Data (wrap : KPIWrap) (data : gmap string value) : KPIWrap :=
  {| KPIWrap_Data := Some (default [] (KPIWrap_Data wrap) ++ [data])%list;
     KPIWrap_Meta := KPIWrap_Meta wrap |}.

(** The envelope before the loop over [kpis]. *)
Definition initWrap (forcePush : bool) : KPIWrap :=
  let wrap := {| KPIWrap_Data := Some []; KPIWrap_Meta := None |} in
  if forcePush
  then {| KPIWrap_Data := KPIWrap_Data wrap;
          KPIWrap_Meta := Some {[ "ensure_unique" := VBool true ]} |}
  else wrap.

(** The envelope [serializeKPIs] hands to [json.Marshal]. *)
Definition wrapKPIs (kpis : list KPI) (forcePush : bool) : KPIWrap :=
  foldl (λ wrap kpi, append_Data wrap (ToJSONData kpi)) (initWrap forcePush) kpis.

(** The same, the call of [ToJSONData] on the [i]-th record visiting its
    maps in the [i]-th pair of orders of [orders]. *)
Definition wrapKPIs_ranged
    (orders : list (list (string * value) * list (string * float32)))
    (kpis : list KPI) (forcePush : bool) : KPIWrap :=
  foldl (λ wrap '(kpi, o), append_Data wrap (ToJSONData_ranged o.1 o.2 kpi))
        (initWrap forcePush) (zip kpis orders).

Definition range_orders (kpis : list KPI)
    (orders : list (list (string * value) * list (string * float32))) : Prop :=
  Forall2 (λ kpi o, range_order (KPI_Attributes kpi) o.1
                    ∧ range_order (KPI_Metrics kpi) o.2) kpis orders.

Definition serializeKPIs (FormatFloat : spec_float → nat → string) (kpis : list KPI)
    (forcePush : bool) : string * option error :=
  json_Marshal FormatFloat (wrapKPIs kpis forcePush).

Definition serializeKPIs_ranged (FormatFloat : spec_float → nat → string)
    (orders : list (list (string * value) * list (string * float32)))
    (kpis : list KPI) (forcePush : bool) : string * option error :=
  json_Marshal FormatFloat (wrapKPIs_ranged orders kpis forcePush).

(** ** JSON texts: reading *)

Definition is_space (c : ascii) : bool :=
  bool_decide (N_of_ascii c ∈ [32; 9; 13; 10]%N).

Definition is_digit (c : ascii) : bool :=
  let n := N_of_ascii c in (48 <=? n)%N && (n <=? 57)%N.

Fixpoint skip_space (s : string) : string :=
  match s with
  | String c s' => if is_space c then skip_space s' else s
  | "" => ""
  end.

(** [s] without its prefix [p], if it starts with [p]. *)
Fixpoint strip_prefix (p s : string) : option string :=
  match p, s with
  | "", _ => Some s
  | String a p', String b s' => if decide (a = b) then strip_prefix p' s' else None
  | _, "" => None
  end.

(** The longest prefix of digits, and what follows it. *)
Fixpoint span_digits (s : string) : string * string :=
  match s with
  | String c s' =>
      if is_digit c then let '(ds, rest) := span_digits s' in (String c ds, rest)
      else ("", s)
  | "" => ("", "")
  end.

(** A number: an optional minus sign, an integer part without leading
    zero, an optional fraction and an optional exponent. *)
Definition scan_number (s : string) : option (string * string) :=
  let '(sign, s) :=
    match s with
    | String "-" s' => ("-", s')
    | _ => ("", s)
    end in
  let '(int, s) := span_digits s in
  match int with
  | "" => None
  | String "0" (String _ _) => None
  | _ =>
      let '(frac, s) :=
        match s with
        | String "." s' => let '(ds, rest) := span_digits s' in (Some ds, rest)
        | _ => (None, s)
        end in
      match frac with
      | Some "" => None
      | _ =>
          let frac := from_option (String ".") "" frac in
          match s with
          | String e s' =>
              if bool_decide (e = "e"%char ∨ e = "E"%char) then
                let '(esign, s'') :=
                  match s' with
                  | String "+" s'' => ("+", s'')
                  | String "-" s'' => ("-", s'')
                  | _ => ("", s')
                  end in
                let '(ds, rest) := span_digits s'' in
                match ds with
                | "" => None
                | _ => Some (sign +:+ int +:+ frac +:+ String e esign +:+ ds, rest)
                end
              else Some (sign +:+ int +:+ frac, s)
          | "" => Some (sign +:+ int +:+ frac, s)
          end
      end
  end.

Definition hex_value (c : ascii) : option N :=
  let n := N_of_ascii c in
  if is_digit c then Some (n - 48)%N
  else if (97 <=? n)%N && (n <=? 102)%N then Some (n - 87)%N
  else if (65 <=? n)%N && (n <=? 70)%N then Some (n - 55)%N
  else None.

(** The four hex digits after a [\u]. *)
Definition hex4 (s : string) : option (N * string) :=
  match s with
  | String a (String b (String c (String d rest))) =>
      a ← hex_value a; b ← hex_value b; c ← hex_value c; d ← hex_value d;
      Some (((a * 16 + b) * 16 + c) * 16 + d, rest)%N
  | _ => None
  end.

(** [utf8.EncodeRune]. *)
Definition utf8 (r : N) : string :=
  let byte (n : N) := String (ascii_of_N n) in
  if (r <? 128)%N then byte r ""
  else if (r <? 2048)%N then
    byte (192 + r / 64)%N (byte (128 + r mod 64)%N "")
  else if (r <? 65536)%N then
    byte (224 + r / 4096)%N
      (byte (128 + (r / 64) mod 64)%N (byte (128 + r mod 64)%N ""))
  else
    byte (240 + r / 262144)%N
      (byte (128 + (r / 4096) mod 64)%N
        (byte (128 + (r / 64) mod 64)%N (byte (128 + r mod 64)%N ""))).

Definition surrogate (r : N) : bool := (55296 <=? r)%N && (r <? 57344)%N.

(** The rune a [\u] escape stands for, and what follows it: a pair of
    surrogates is one rune, a lone surrogate is U+FFFD. *)
Definition unescape_u (s : string) : option (N * string) :=
  '(r, rest) ← hex4 s;
  if surrogate r then
    match rest with
    | String b (String u rest') =>
        if bool_decide (b = backslash ∧ u = "u"%char) then
          match hex4 rest' with
          | Some (r2, rest'') =>
              if (r <? 56320)%N && (56320 <=? r2)%N && (r2 <? 57344)%N
              then Some (65536 + (r - 55296) * 1024 + (r2 - 56320), rest'')%N
              else Some (65533%N, rest)
          | None => Some (65533%N, rest)
          end
        else Some (65533%N, rest)
    | _ => Some (65533%N, rest)
    end
  else Some (r, rest).

(** The content of a string, read from after its opening quote to its
    closing quote.  The text is taken to be valid UTF-8. *)
Fixpoint scan_string (fuel : nat) (s : string) : option (string * string) :=
  match fuel with
  | O => None
  | S fuel =>
      match s with
      | "" => None
      | String c s' =>
          if decide (c = dquote) then Some ("", s')
          else if decide (c = backslash) then
            match s' with
            | String e s'' =>
                let simple (b : N) :=
                  '(str, rest) ← scan_string fuel s''; Some (String (ascii_of_N b) str, rest) in
                if decide (e = "u"%char) then
                  '(r, rest) ← unescape_u s'';
                  '(str, rest) ← scan_string fuel rest;
                  Some (utf8 r +:+ str, rest)
                else if decide (e = dquote) then simple 34%N
                else if decide (e = backslash) then simple 92%N
                else if decide (e = "/"%char) then simple 47%N
                else if decide (e = "b"%char) then simple 8%N
                else if decide (e = "f"%char) then simple 12%N
                else if decide (e = "n"%char) then simple 10%N
                else if decide (e = "r"%char) then simple 13%N
                else if decide (e = "t"%char) then simple 9%N
                else None
            | "" => None
            end
          else if (N_of_ascii c <? 32)%N then None
          else '(str, rest) ← scan_string fuel s'; Some (String c str, rest)
      end
  end.

(** One value, and what follows it.  [fuel] bounds the number of values,
    elements and members read; the length of the text is enough. *)
Fixpoint scan_value (fuel : nat) (s : string) : option (json * string) :=
  match fuel with
  | O => None
  | S fuel =>
      match skip_space s with
      | "" => None
      | String c s' as s0 =>
          if decide (c = "n"%char) then rest ← strip_prefix "null" s0; Some (JNull, rest)
          else if decide (c = "t"%char) then
            rest ← strip_prefix "true" s0; Some (JBool true, rest)
          else if decide (c = "f"%char) then
            rest ← strip_prefix "false" s0; Some (JBool false, rest)
          else if decide (c = dquote) then
            '(str, rest) ← scan_string (String.length s') s'; Some (JStr str, rest)
          else if decide (c = "["%char) then
            match skip_space s' with
            | String "]" rest => Some (JArr [], rest)
            | _ => '(elems, rest) ← scan_elems fuel s'; Some (JArr elems, rest)
            end
          else if decide (c = "{"%char) then
            match skip_space s' with
            | String "}" rest => Some (JObj [], rest)
            | _ => '(members, rest) ← scan_members fuel s'; Some (JObj members, rest)
            end
          else '(lit, rest) ← scan_number s0; Some (JNum lit, rest)
      end
  end
(** The elements of an array, from after [[] or [,] to the closing []]. *)
with scan_elems (fuel : nat) (s : string) : option (list json * string) :=
  match fuel with
  | O => None
  | S fuel =>
      '(v, rest) ← scan_value fuel s;
      match skip_space rest with
      | String "," rest => '(vs, rest) ← scan_elems fuel rest; Some (v :: vs, rest)
      | String "]" rest => Some ([v], rest)
      | _ => None
      end
  end
(** The members of an object, from after [{] or [,] to the closing [}]. *)
with scan_members (fuel : nat) (s : string) : option (list (string * json) * string) :=
  match fuel with
  | O => None
  | S fuel =>
      match skip_space s with
      | String c s' =>
          if decide (c = dquote) then
            '(k, rest) ← scan_string (String.length s') s';
            match skip_space rest with
            | String ":" rest =>
                '(v, rest) ← scan_value fuel rest;
                match skip_space rest with
                | String "," rest =>
                    '(ms, rest) ← scan_members fuel rest; Some ((k, v) :: ms, rest)
                | String "}" rest => Some ([(k, v)], rest)
                | _ => None
                end
            | _ => None
            end
          else None
      | "" => None
      end
  end.

(** The document a text holds, if it is valid JSON: one value, with
    nothing but white space around it ([checkValid]). *)
Definition parseJSON (data : string) : option json :=
  '(j, rest) ← scan_value (S (String.length data)) data;
  if decide (skip_space rest = "") then Some j else None.

(** How [UnmarshalTypeError] names a JSON value. *)
Definition json_kind (j : json) : string :=
  match j with
  | JNull => "null"
  | JBool _ => "bool"
  | JNum lit => "number " +:+ lit
  | JStr _ => "string"
  | JArr _ => "array"
  | JObj _ => "object"
  end.

Definition to_lower (c : ascii) : ascii :=
  let n := N_of_ascii c in
  if (65 <=? n)%N && (n <=? 90)%N then ascii_of_N (n + 32) else c.

Fixpoint lower (s : string) : string :=
  match s with
  | "" => ""
  | String c s' => String (to_lower c) (lower s')
  end.

(** A member named [name] fills the field tagged [tag]: the names match up
    to the case of ASCII letters. *)
Definition names_field (name tag : string) : bool :=
  bool_decide (lower name = lower tag).

(** The error of [json.Unmarshal] on a text that is not valid JSON.  The
    scanner's diagnostic (which byte, where) is not modelled. *)
Definition syntaxError : error := SyntaxError "invalid character in JSON input".

Section Unmarshal.
(** [strconv.ParseFloat(lit, 64)] on a number literal; [None] when the
    number is out of range. *)
Variable ParseFloat : string → option spec_float.

(** Decoding into an [interface{}]. *)
Fixpoint decodeValue (j : json) : result value :=
  match j with
  | JNull => Ok VNil
  | JBool b => Ok (VBool b)
  | JNum lit =>
      match ParseFloat lit with
      | Some f => Ok (VFloat64 f)
      | None => Err (UnmarshalTypeError ("number " +:+ lit) "float64" "" "")
      end
  | JStr s => Ok (VString s)
  | JArr elems => result_map VSlice (collect (decodeValue <$> elems))
  | JObj members =>
      result_map (λ kvs, VMap (list_to_map (reverse kvs)))
        (collect_members ((λ kv, (kv.1, decodeValue kv.2)) <$> members))
  end.

(** Decoding into a [map[string]interface{}] that holds [cur]: [null]
    makes it nil, an object adds its members, the last one written
    winning. *)
Definition decodeMap (strct field : string) (j : json) (cur : option (gmap string value))
    : result (option (gmap string value)) :=
  match j with
  | JNull => Ok None
  | JObj members =>
      result_map (λ kvs, Some (list_to_map (reverse kvs) ∪ default ∅ cur))
        (collect_members ((λ kv, (kv.1, decodeValue kv.2)) <$> members))
  | _ => Err (UnmarshalTypeError (json_kind j) "map[string]interface {}" strct field)
  end.

(** Decoding into a [string] field: [null] leaves it as it is. *)
Definition decodeString (strct field : string) (j : json) (cur : string) : result string :=
  match j with
  | JNull => Ok cur
  | JStr s => Ok s
  | _ => Err (UnmarshalTypeError (json_kind j) "string" strct field)
  end.

(** Decoding into a slice: [null] makes it nil, an array gives one
    element per element, each decoded by [elem] into a zero value. *)
Definition decodeSlice {A} (ty strct field : string) (elem : json → result A) (j : json)
    : result (option (list A)) :=
  match j with
  | JNull => Ok None
  | JArr elems => result_map Some (collect (elem <$> elems))
  | _ => Err (UnmarshalTypeError (json_kind j) ty strct field)
  end.

(** Decoding an object into a struct: the members in the order they are
    written, each into the field [field] finds for its name; a name no
    field is tagged with is skipped. *)
Definition decodeStruct {A} (ty strct name : string)
    (field : string → json → A → option (result A)) (j : json) (cur : A) : result A :=
  match j with
  | JNull => Ok cur
  | JObj members =>
      foldl (λ acc kv, result_bind acc (λ cur, default (Ok cur) (field kv.1 kv.2 cur)))
            (Ok cur) members
  | _ => Err (UnmarshalTypeError (json_kind j) ty strct name)
  end.

Definition decodeResponseStatus (strct field : string) : json → ResponseStatus → result ResponseStatus :=
  decodeStruct "databox.ResponseStatus" strct field (λ name v cur,
    if names_field name "id" then
      Some (result_map (λ s, mkResponseStatus s (ResponseStatus_Type cur) (ResponseStatus_Message cur))
              (decodeString "ResponseStatus" "id" v (ResponseStatus_ID cur)))
    else if names_field name "type" then
      Some (result_map (λ s, mkResponseStatus (ResponseStatus_ID cur) s (ResponseStatus_Message cur))
              (decodeString "ResponseStatus" "type" v (ResponseStatus_Type cur)))
    else if names_field name "message" then
      Some (result_map (λ s, mkResponseStatus (ResponseStatus_ID cur) (ResponseStatus_Type cur) s)
              (decodeString "ResponseStatus" "message" v (ResponseStatus_Message cur)))
    else None).

Definition decodeKPIWrap (strct field : string) : json → KPIWrap → result KPIWrap :=
  decodeStruct "databox.KPIWrap" strct field (λ name v cur,
    if names_field name "data" then
      Some (result_map (λ d, mkKPIWrap d (KPIWrap_Meta cur))
              (decodeSlice "[]map[string]interface {}" "KPIWrap" "data"
                 (λ j, result_map (default ∅) (decodeMap "KPIWrap" "data" j None)) v))
    else if names_field name "meta" then
      Some (result_map (λ m, mkKPIWrap (KPIWrap_Data cur) m)
              (decodeMap "KPIWrap" "meta" v (KPIWrap_Meta cur)))
    else None).

Definition decodeStrings (strct field : string) : json → result (option (list string)) :=
  decodeSlice "[]string" strct field (λ j, decodeString strct field j "").

Definition decodePushRequest (strct field : string) : json → PushRequest → result PushRequest :=
  decodeStruct "databox.PushRequest" strct field (λ name v cur,
    if names_field name "date" then
      Some (result_map (λ s, mkPushRequest s (PushRequest_Body cur) (PushRequest_Errors cur))
              (decodeString "PushRequest" "date" v (PushRequest_Date cur)))
    else if names_field name "body" then
      Some (result_map (λ b, mkPushRequest (PushRequest_Date cur) b (PushRequest_Errors cur))
              (decodeKPIWrap "PushRequest" "body" v (PushRequest_Body cur)))
    else if names_field name "errors" then
      Some (result_map (λ e, mkPushRequest (PushRequest_Date cur) (PushRequest_Body cur) e)
              (decodeStrings "PushRequest" "errors" v))
    else None).

Definition decodePushResponse (strct field : string) : json → PushResponse → result PushResponse :=
  decodeStruct "databox.PushResponse" strct field (λ name v cur,
    if names_field name "date" then
      Some (result_map (λ s, mkPushResponse s (PushResponse_Body cur))
              (decodeString "PushResponse" "date" v (PushResponse_Date cur)))
    else if names_field name "body" then
      Some (result_map (λ b, mkPushResponse (PushResponse_Date cur) b)
              (decodeResponseStatus "PushResponse" "body" v (PushResponse_Body cur)))
    else None).

Definition decodeLastPush : json → LastPush → result LastPush :=
  decodeStruct "databox.LastPush" "" "" (λ name v cur,
    if names_field name "request" then
      Some (result_map (λ r, mkLastPush r (LastPush_Response cur) (LastPush_Metrics cur))
              (decodePushRequest "LastPush" "request" v (LastPush_Request cur)))
    else if names_field name "response" then
      Some (result_map (λ r, mkLastPush (LastPush_Request cur) r (LastPush_Metrics cur))
              (decodePushResponse "LastPush" "response" v (LastPush_Response cur)))
    else if names_field name "metrics" then
      Some (result_map (λ m, mkLastPush (LastPush_Request cur) (LastPush_Response cur) m)
              (decodeStrings "LastPush" "metrics" v))
    else None).

(** [json.Unmarshal(data, &lastPushes)] for [lastPushes] of type
    [[]LastPush]: the slice after the call, and the error.  On an error
    the callers drop the slice, which is returned as it was. *)
Definition json_Unmarshal_LastPushes (data : string) (lastPushes : list LastPush)
    : list LastPush * option error :=
  match parseJSON data with
  | None => (lastPushes, Some syntaxError)
  | Some j =>
      match decodeSlice "[]databox.LastPush" "" "" (λ j, decodeLastPush j zeroLastPush) j with
      | Ok l => (default [] l, None)
      | Err e => (lastPushes, Some e)
      end
  end.
End Unmarshal.

(** [json.Unmarshal(data, &responseStatus)] for [responseStatus] of type
    [*ResponseStatus]: the pointer after the call ([None] is nil), and the
    error.  The JSON text [null] sets the pointer to nil; any other value is
    decoded into the struct it points to.  On an error the callers drop the
    struct, which is returned as it was. *)
Definition json_Unmarshal_ResponseStatus (data : string)
    (responseStatus : option ResponseStatus) : option ResponseStatus * option error :=
  match parseJSON data with
  | None => (responseStatus, Some syntaxError)
  | Some JNull => (None, None)
  | Some j =>
      match decodeResponseStatus "" "" j (default zeroResponseStatus responseStatus) with
      | Ok rs => (Some rs, None)
      | Err e => (responseStatus, Some e)
      end
  end.

(** ** The HTTP exchange *)

(** A [context.Context]: the background context, or one a caller derived
    from it.  The transport sees it in the request and may give up on it. *)
Variant Context : Type :=
  | context_Background
  | context_Derived (id : nat).

Record Request : Type := mkRequest {
  Request_Method : string;
  Request_URL : string;
  Request_Header : gmap string (list string);
  Request_Body : option string;
  Request_ctx : Context;
}.

(** A response: the status code and what reading the body to its end
    gives, the bytes read and the error that stopped the reading, if any. *)
Record Response : Type := mkResponse {
  Response_StatusCode : Z;
  Response_Body : string * option error;
}.

(** [HTTPClient] is the exchange itself: what [Do] answers to a request. *)
Record Client : Type := mkClient {
  Client_PushToken : string;
  Client_PushHost : string;
  Client_HTTPClient : Request → result Response;
}.

(** A run of an operation: the requests handed to the HTTP client, in
    order, and the values returned, or the panic that ended the run. *)
Inductive exec (A : Type) : Type :=
  | Returns (sent : list Request) (a : A)
  | Panics (sent : list Request) (reason : string).
Arguments Returns {A} sent a.
Arguments Panics {A} sent reason.

Global Instance exec_ret : MRet exec := λ A a, Returns [] a.

Global Instance exec_bind : MBind exec := λ A B k m,
  match m with
  | Returns sent a =>
      match k a with
      | Returns sent' b => Returns (sent ++ sent') b
      | Panics sent' reason => Panics (sent ++ sent') reason
      end
  | Panics sent reason => Panics sent reason
  end.

(** The requests a run handed to the HTTP client. *)
Definition sent {A} (m : exec A) : list Request :=
  match m with
  | Returns sent _ => sent
  | Panics sent _ => sent
  end.

Definition nil_dereference : string :=
  "runtime error: invalid memory address or nil pointer dereference".

(** [p.field] through a pointer [p]. *)
Definition deref {A} (p : option A) : exec A :=
  match p with
  | Some a => mret a
  | None => Panics [] nil_dereference
  end.

(** [c.HTTPClient.Do(request)]. *)
Definition Client_Do (c : Client) (request : Request) : exec (result Response) :=
  Returns [request] (Client_HTTPClient c request).

(** [ioutil.ReadAll(response.Body)]. *)
Definition ioutil_ReadAll (body : string * option error) : string * option error := body.

Definition is_token (c : ascii) : bool :=
  let n := N_of_ascii c in
  (48 <=? n)%N && (n <=? 57)%N || (65 <=? n)%N && (n <=? 90)%N
  || (97 <=? n)%N && (n <=? 122)%N
  || bool_decide (n ∈ [33; 35; 36; 37; 38; 39; 42; 43; 45; 46; 94; 95; 96; 124; 126]%N).

Fixpoint all_chars (P : ascii → bool) (s : string) : bool :=
  match s with
  | "" => true
  | String c s' => P c && all_chars P s'
  end.

Definition is_control (c : ascii) : bool :=
  let n := N_of_ascii c in (n <? 32)%N || bool_decide (n = 127%N).

(** [http.NewRequestWithContext]: the method has to be a token and the URL
    has to parse.  Of the checks of [url.Parse] only the one for control
    characters is modelled; the URLs of this client pass the others. *)
Definition http_NewRequestWithContext (ctx : Context) (method url : string)
    (body : option string) : result Request :=
  if negb (bool_decide (method ≠ "") && all_chars is_token method) then
    Err (errorString ("net/http: invalid method " +:+ quote method))
  else if negb (all_chars (λ c, negb (is_control c)) url) then
    Err (urlError "parse" (quote url) "net/url: invalid control character in URL")
  else
    Ok {| Request_Method := method; Request_URL := url; Request_Header := ∅;
          Request_Body := body; Request_ctx := ctx |}.

(** [request.Header.Set(key, value)], for a key in canonical form. *)
Definition Header_Set (key value : string) (request : Request) : Request :=
  {| Request_Method := Request_Method request; Request_URL := Request_URL request;
     Request_Header := <[key := [value]]> (Request_Header request);
     Request_Body := Request_Body request; Request_ctx := Request_ctx request |}.

(** [base64.StdEncoding.EncodeToString]. *)
Definition base64_char (n : N) : ascii :=
  ascii_of_N (if (n <? 26)%N then 65 + n
              else if (n <? 52)%N then 71 + n
              else if (n <? 62)%N then n - 4
              else if (n =? 62)%N then 43 else 47).

Fixpoint base64 (s : string) : string :=
  match s with
  | "" => ""
  | String a "" =>
      let a := N_of_ascii a in
      String (base64_char (a / 4)) (String (base64_char ((a mod 4) * 16)) "==")
  | String a (String b "") =>
      let a := N_of_ascii a in let b := N_of_ascii b in
      String (base64_char (a / 4))
        (String (base64_char ((a mod 4) * 16 + b / 16))
          (String (base64_char ((b mod 16) * 4)) "="))
  | String a (String b (String c s')) =>
      let a := N_of_ascii a in let b := N_of_ascii b in let c := N_of_ascii c in
      String (base64_char (a / 4))
        (String (base64_char ((a mod 4) * 16 + b / 16))
          (String (base64_char ((b mod 16) * 4 + c / 64))
            (String (base64_char (c mod 64)) (base64 s'))))
  end.

(** [request.SetBasicAuth(username, password)]. *)
Definition SetBasicAuth (username password : string) (request : Request) : Request :=
  Header_Set "Authorization" ("Basic " +:+ base64 (username +:+ ":" +:+ password)) request.

(** [strings.Split(s, sep)] for a non-empty [sep]: [skip] counts the bytes
    of a separator still to pass over, [cur] is the piece being read. *)
Fixpoint split_from (sep : string) (skip : nat) (cur : string) (s : string) : list string :=
  match s with
  | "" => [cur]
  | String c s' =>
      match skip with
      | S skip => split_from sep skip cur s'
      | O =>
          if String.prefix sep s
          then cur :: split_from sep (String.length sep - 1) "" s'
          else split_from sep 0 (cur +:+ String c "") s'
      end
  end.

Definition strings_Split (s sep : string) : list string := split_from sep 0 "" s.

(** [fmt.Sprintf("/lastpushes?limit=%d", n)]. *)
Definition lastpushes_path (n : Z) : string := "/lastpushes?limit=" +:+ pretty n.

(** ** The client *)

(** [NewClient]; [transport] is what the clone of [http.DefaultTransport]
    answers (the limit on idle connections does not show in the answers). *)
Definition NewClient (transport : Request → result Response) (pushToken : string) : Client :=
  {| Client_PushToken := pushToken;
     Client_PushHost := apiURL;
     Client_HTTPClient := transport |}.

Definition postRequest (c : Client) (ctx : Context) (path : string) (payload : string)
    : exec (string * option error) :=
  let userAgent := "databox-go/" +:+ clientVersion in
  let accept := "application/vnd.databox.v"
                +:+ default "" (strings_Split clientVersion "." !! 0%nat) +:+ "+json" in
  match http_NewRequestWithContext ctx "POST" (apiURL +:+ path) (Some payload) with
  | Err err => mret ("", Some (fmt_Errorf_w "creating request object: " err))
  | Ok request =>
      let request := Header_Set "User-Agent" userAgent request in
      let request := Header_Set "Accept" accept request in
      let request := Header_Set "Content-Type" "application/json" request in
      let request := SetBasicAuth (Client_PushToken c) "" request in
      response ← Client_Do c request;
      match response with
      | Err err => mret ("", Some (fmt_Errorf_w "executing HTTP request: " err))
      | Ok response =>
          let '(data, err) := ioutil_ReadAll (Response_Body response) in
          match err with
          | Some err => mret (data, Some (fmt_Errorf_w "reading response body: " err))
          | None =>
              if decide (Response_StatusCode response < 200
                         ∨ Response_StatusCode response > 299)%Z then
                let '(responseStatus, err) :=
                  json_Unmarshal_ResponseStatus data (Some zeroResponseStatus) in
                match err with
                | Some err =>
                    mret ("", Some (fmt_Errorf_w
                                      ("can't unmarshal data[" +:+ data +:+ "]: ") err))
                | None =>
                    responseStatus ← deref responseStatus;
                    mret ("", Some (errors_New (ResponseStatus_Type responseStatus +:+ ": "
                                                +:+ ResponseStatus_Message responseStatus)))
                end
              else mret (data, None)
          end
      end
  end.

Definition getRequest (c : Client) (ctx : Context) (path : string)
    : exec (string * option error) :=
  let userAgent := "databox-go/" +:+ clientVersion in
  let accept := "application/vnd.databox.v"
                +:+ default "" (strings_Split clientVersion "." !! 0%nat) +:+ "+json" in
  match http_NewRequestWithContext ctx "GET" (apiURL +:+ path) None with
  | Err err => mret ("", Some (fmt_Errorf_w "creating request object: " err))
  | Ok request =>
      let request := Header_Set "User-Agent" userAgent request in
      let request := Header_Set "Accept" accept request in
      let request := Header_Set "Content-Type" "application/json" request in
      let request := SetBasicAuth (Client_PushToken c) "" request in
      response ← Client_Do c request;
      match response with
      | Err err => mret ("", Some (fmt_Errorf_w "executing HTTP request: " err))
      | Ok response =>
          let '(data, err) := ioutil_ReadAll (Response_Body response) in
          match err with
          | Some err => mret ("", Some (fmt_Errorf_w "reading response body: " err))
          | None => mret (data, None)
          end
      end
  end.

Section Operations.
Variable FormatFloat : spec_float → nat → string.
Variable ParseFloat : string → option spec_float.

Definition LastPushesCtx (c : Client) (ctx : Context) (n : Z)
    : exec (list LastPush * option error) :=
  let path := lastpushes_path n in
  '(response, err) ← getRequest c ctx path;
  match err with
  | Some err => mret ([], Some (fmt_Errorf_w "requesting /lastpushes from API: " err))
  | None =>
      let lastPushes : list LastPush := [] in
      let '(lastPushes, err) := json_Unmarshal_LastPushes ParseFloat response lastPushes in
      match err with
      | Some err =>
          mret ([], Some (fmt_Errorf_w
                            ("can't unmarshal response[" +:+ response +:+ "]: ") err))
      | None => mret (lastPushes, None)
      end
  end.

Definition LastPushes (c : Client) (n : Z) : exec (list LastPush * option error) :=
  LastPushesCtx c context_Background n.

Definition LastPushCtx (c : Client) (ctx : Context) : exec (LastPush * option error) :=
  '(lastPushes, err) ← LastPushesCtx c ctx 1;
  match err with
  | Some err => mret (zeroLastPush, Some err)
  | None =>
      match lastPushes with
      | [] => mret (zeroLastPush, Some (errors_New "no last push"))
      | lastPush :: _ => mret (lastPush, None)
      end
  end.

(** The method [LastPush] of the client; [LastPush] alone names the
    struct. *)
Definition Client_LastPush (c : Client) : exec (LastPush * option error) :=
  LastPushCtx c context_Background.

Definition PushCtx (c : Client) (ctx : Context) (kpi : KPI)
    : exec (option ResponseStatus * option error) :=
  let '(payload, err) := serializeKPIs FormatFloat [kpi] false in
  match err with
  | Some err => mret (None, Some (fmt_Errorf_w "preparing request: " err))
  | None =>
      '(response, err) ← postRequest c ctx "/" payload;
      match err with
      | Some err => mret (None, Some (fmt_Errorf_w "sending request: " err))
      | None =>
          let '(responseStatus, err) :=
            json_Unmarshal_ResponseStatus response (Some zeroResponseStatus) in
          match err with
          | Some err =>
              mret (None, Some (fmt_Errorf_w
                                  ("can't unmarshal respoonse[" +:+ response +:+ "]: ") err))
          | None => mret (responseStatus, None)
          end
      end
  end.

Definition Push (c : Client) (kpi : KPI) : exec (option ResponseStatus * option error) :=
  PushCtx c context_Background kpi.

Definition InsertAll (c : Client) (ctx : Context) (kpis : list KPI) (forcePush : bool)
    : exec (option ResponseStatus * option error) :=
  let '(payload, err) := serializeKPIs FormatFloat kpis forcePush in
  match err with
  | Some err => mret (None, Some (fmt_Errorf_w "preparing request: " err))
  | None =>
      '(response, err) ← postRequest c ctx "/" payload;
      match err with
      | Some err => mret (None, Some (fmt_Errorf_w "sending request: " err))
      | None =>
          let '(responseStatus, err) :=
            json_Unmarshal_ResponseStatus response (Some zeroResponseStatus) in
          match err with
          | Some err =>
              mret (None, Some (fmt_Errorf_w
                                  ("can't unmarshal respoonse[" +:+ response +:+ "]: ") err))
          | None => mret (responseStatus, None)
          end
      end
  end.
End Operations.

(** ** A printer of floats for the examples *)

(** The exact decimal expansion of a finite float, without exponent.  It is
    the text Go prints for the floats whose shortest decimal form is their
    exact value: the integers a [float32] holds exactly, halves, quarters
    and the like.  It only serves to run the examples. *)
Definition exactDecimal (f : spec_float) (bits : nat) : string :=
  match f with
  | S754_zero s => if s then "-0" else "0"
  | S754_finite s m e =>
      (if s then "-" else "") +:+
      match e with
      | Z.neg k =>
          let den := (2 ^ Z.pos k)%Z in
          let frac := ((Z.pos m mod den) * 10 ^ Z.pos k / den)%Z in
          let digits := pretty frac in
          let padded := String.concat "" (replicate (Pos.to_nat k - String.length digits) "0")
                        +:+ digits in
          let fix trim (fuel : nat) (s : string) : string :=
            match fuel with
            | O => s
            | S fuel =>
                match String.rev s with
                | String "0" r => trim fuel (String.rev r)
                | _ => s
                end
            end in
          let shown := trim (String.length padded) padded in
          pretty (Z.pos m / den)%Z +:+ (if decide (shown = "") then "" else "." +:+ shown)
      | _ => pretty (Z.pos m * 2 ^ e)%Z
      end
  | _ => ""
  end.

(** [strconv.ParseFloat] on the literals of small integers, for the
    examples: the literal of a natural number below 2^53 is that number. *)
Definition parseSmallInt (lit : string) : option spec_float :=
  if decide (lit = "0") then Some (S754_zero false)
  else if all_chars is_digit lit && (String.length lit <=? 15)%nat
  then
    let fix num (acc : N) (s : string) : N :=
      match s with
      | "" => acc
      | String c s' => num (acc * 10 + (N_of_ascii c - 48))%N s'
      end in
    match num 0%N lit with
    | Npos p => Some (S754_finite false p 0)
    | N0 => None
    end
  else None.

(** ** What [json.Marshal] accepts *)

Definition is_finite (f : spec_float) : bool :=
  match f with
  | S754_zero _ | S754_finite _ _ _ => true
  | S754_infinity _ | S754_nan => false
  end.

(** The values the encoder has no error for: no NaN, no infinity and no
    value of an unsupported type, at any depth. *)
Fixpoint marshalable (v : value) : bool :=
  match v with
  | VFloat32 f | VFloat64 f => is_finite f
  | VSlice l => forallb marshalable l
  | VMap m => map_fold (λ _ v acc, marshalable v && acc) true m
  | VUnsupported _ => false
  | _ => true
  end.

(** The records all of whose output entries the encoder accepts. *)
Definition encodable (kpi : KPI) : Prop :=
  map_Forall (λ _ v, marshalable v = true) (ToJSONData kpi).

Global Instance encodable_dec kpi : Decision (encodable kpi).
Proof. unfold encodable. apply _. Defined.

Fixpoint value_size (v : value) : nat :=
  match v with
  | VSlice l => S (sum_list (value_size <$> l))
  | VMap m => S (map_fold (λ _ v acc, value_size v + acc) 0 m)
  | _ => 1
  end.

(** The documents the two calls of C6 produce for the encoded records. *)
Definition forced_envelope (data : list json) : json :=
  JObj [("data", JArr data); ("meta", JObj [("ensure_unique", JBool true)])].

Definition plain_envelope (data : list json) : json :=
  JObj [("data", JArr data)].

(** "Serializing with forcePush=true produces an envelope whose meta holds
    ensure_unique set to true, and with forcePush=false an envelope with no
    meta at all", read for one list of records. *)
Definition produces_envelopes (FormatFloat : spec_float → nat → string)
    (kpis : list KPI) : Prop :=
  ∃ data,
    serializeKPIs FormatFloat kpis true = (render (forced_envelope data), None)
    ∧ serializeKPIs FormatFloat kpis false = (render (plain_envelope data), None).

(** The bytes [{"data":[]}]. *)
Definition empty_envelope_bytes : string :=
  "{" +:+ String dquote "data" +:+ String dquote ":[]}".

(** The header every request of the client carries. *)
Definition databox_header (c : Client) : gmap string (list string) :=
  <["Authorization" := ["Basic " +:+ base64 (Client_PushToken c +:+ ":")]]>
    (<["Content-Type" := ["application/json"]]>
      (<["Accept" := ["application/vnd.databox.v2+json"]]>
        (<["User-Agent" := ["databox-go/2.1.0"]]> ∅))).

(** The request [postRequest] and [getRequest] hand to the HTTP client. *)
Definition databox_request (c : Client) (ctx : Context) (method path : string)
    (body : option string) : Request :=
  {| Request_Method := method; Request_URL := apiURL +:+ path;
     Request_Header := databox_header c; Request_Body := body; Request_ctx := ctx |}.

(** ** Records and statements the properties below refer to *)

(** The record with another [Value]. *)
Definition with_Value (v : float32) (kpi : KPI) : KPI :=
  {| KPI_Key := KPI_Key kpi; KPI_Value := v; KPI_Metrics := KPI_Metrics kpi;
     KPI_Date := KPI_Date kpi; KPI_Unit := KPI_Unit kpi;
     KPI_Attributes := KPI_Attributes kpi |}.

(** The floats 1, 2, 5 and 42. *)
Definition float_1 : float32 := S754_finite false 1 0.
Definition float_2 : float32 := S754_finite false 1 1.
Definition float_5 : float32 := S754_finite false 5 0.
Definition float_42 : float32 := S754_finite false 21 1.

(** An attribute, a metric and [Key] all claim the key [$x]. *)
Definition collision_kpi : KPI :=
  {| KPI_Key := "x"; KPI_Value := float_2;
     KPI_Metrics := {[ "x" := float_1 ]};
     KPI_Date := ""; KPI_Unit := "";
     KPI_Attributes := {[ "$x" := VString "attribute" ]} |}.

(** A record with two metrics and a [Value] without a [Key]. *)
Definition keyless_kpi : KPI :=
  {| KPI_Key := ""; KPI_Value := float_5;
     KPI_Metrics := {[ "a" := float_1; "b" := float_2 ]};
     KPI_Date := "2006-01-02"; KPI_Unit := "";
     KPI_Attributes := {[ "country" := VString "US"; "$a" := VBool true ]} |}.

(** The spec's scenario: [{key:"visits", value:42, unit:"count"}]. *)
Definition visits_kpi : KPI :=
  {| KPI_Key := "visits"; KPI_Value := float_42; KPI_Metrics := ∅;
     KPI_Date := ""; KPI_Unit := "count"; KPI_Attributes := ∅ |}.

(** A record whose [Value] is not a number. *)
Definition nan_kpi : KPI :=
  {| KPI_Key := "a"; KPI_Value := S754_nan; KPI_Metrics := ∅;
     KPI_Date := ""; KPI_Unit := ""; KPI_Attributes := ∅ |}.

(** "When an attribute and a metrics entry collide on the same key, the
    metrics value is the one present in the output", read for one record. *)
Definition metrics_value_wins (kpi : KPI) : Prop :=
  ∀ m v a,
    KPI_Metrics kpi !! m = Some v →
    KPI_Attributes kpi !! dollar m = Some a →
    ToJSONData kpi !! dollar m = Some (VFloat32 v).

(** No later store of [ToJSONData] writes the key [k]. *)
Definition not_overwritten (kpi : KPI) (k : string) : Prop :=
  strip_dollar k ≫= (KPI_Metrics kpi !!.) = None
  ∧ ¬ (KPI_Key kpi ≠ "" ∧ k = dollar (KPI_Key kpi))
  ∧ ¬ (KPI_Date kpi ≠ "" ∧ k = "date")
  ∧ ¬ (KPI_Unit kpi ≠ "" ∧ k = "unit").

(** The status codes outside 200-299. *)
Definition out_of_2xx (code : Z) : Prop := (code < 200 ∨ code > 299)%Z.

(** The client with another [PushHost]. *)
Definition with_PushHost (host : string) (c : Client) : Client :=
  {| Client_PushToken := Client_PushToken c; Client_PushHost := host;
     Client_HTTPClient := Client_HTTPClient c |}.

(** The client whose HTTP exchange answers with the status code [f code]
    where the one of [c] answers with [code], body and errors unchanged. *)
Definition with_status (f : Z → Z) (c : Client) : Client :=
  {| Client_PushToken := Client_PushToken c; Client_PushHost := Client_PushHost c;
     Client_HTTPClient := λ request,
       match Client_HTTPClient c request with
       | Ok response =>
           Ok {| Response_StatusCode := f (Response_StatusCode response);
                 Response_Body := Response_Body response |}
       | Err err => Err err
       end |}.

(** An exchange that answers every request with the status [code] and the
    body [body]. *)
Definition answering (code : Z) (body : string) : Request → result Response :=
  λ _, Ok {| Response_StatusCode := code; Response_Body := (body, None) |}.

(** A client as a test against a local endpoint would set it up: the
    target host overridden, the service answering [code] and [body]. *)
Definition local_client (code : Z) (body : string) : Client :=
  with_PushHost "http://localhost:8080" (NewClient (answering code body) "token").

(** The body [{"type":"forbidden","message":"bad token"}]. *)
Definition forbidden_body : string :=
  "{" +:+ String dquote "type" +:+ String dquote ":" +:+ String dquote "forbidden"
  +:+ String dquote "," +:+ String dquote "message" +:+ String dquote ":"
  +:+ String dquote "bad token" +:+ String dquote "}".

(** What [postRequest] makes of the answer to [request]. *)
Definition post_outcome (request : Request) (response : result Response)
    : exec (string * option error) :=
  match response with
  | Err err => Returns [request] ("", Some (fmt_Errorf_w "executing HTTP request: " err))
  | Ok response =>
      match Response_Body response with
      | (data, Some err) =>
          Returns [request] (data, Some (fmt_Errorf_w "reading response body: " err))
      | (data, None) =>
          if decide (out_of_2xx (Response_StatusCode response)) then
            match json_Unmarshal_ResponseStatus data (Some zeroResponseStatus) with
            | (_, Some err) =>
                Returns [request]
                  ("", Some (fmt_Errorf_w ("can't unmarshal data[" +:+ data +:+ "]: ") err))
            | (Some rs, None) =>
                Returns [request]
                  ("", Some (errors_New (ResponseStatus_Type rs +:+ ": "
                                         +:+ ResponseStatus_Message rs)))
            | (None, None) => Panics [request] nil_dereference
            end
          else Returns [request] (data, None)
      end
  end.

(** What [getRequest] makes of the answer to [request]. *)
Definition get_outcome (request : Request) (response : result Response)
    : exec (string * option error) :=
  match response with
  | Err err => Returns [request] ("", Some (fmt_Errorf_w "executing HTTP request: " err))
  | Ok response =>
      match Response_Body response with
      | (_, Some err) =>
          Returns [request] ("", Some (fmt_Errorf_w "reading response body: " err))
      | (data, None) => Returns [request] (data, None)
      end
  end.

(** "On a status outside 200-299, if the body is valid JSON the call fails
    with the error [<type>: <message>]", read for [postRequest] on the
    service root. *)
Definition api_error_for_valid_JSON (c : Client) (ctx : Context) (payload : string) : Prop :=
  let request := databox_request c ctx "POST" "/" (Some payload) in
  ∀ response data,
    Client_HTTPClient c request = Ok response →
    Response_Body response = (data, None) →
    out_of_2xx (Response_StatusCode response) →
    is_Some (parseJSON data) →
    ∃ rs, postRequest c ctx "/" payload
          = Returns [request]
              ("", Some (errors_New (ResponseStatus_Type rs +:+ ": "
                                     +:+ ResponseStatus_Message rs))).

(** "Every request targets the host configured in the client", read for the
    requests of one run. *)
Definition targets_PushHost {A} (c : Client) (run : exec A) : Prop :=
  Forall (λ request, String.prefix (Client_PushHost c) (Request_URL request) = true)
         (sent run).

(** The spec's scenario: attributes [{"country":"US"}], metrics
    [{"sales":100}]. *)
Definition sales_kpi : KPI :=
  {| KPI_Key := ""; KPI_Value := S754_zero false;
     KPI_Metrics := {[ "sales" := S754_finite false 25 2 ]};
     KPI_Date := ""; KPI_Unit := ""; KPI_Attributes := {[ "country" := VString "US" ]} |}.

(** The body [{"type":"unauthorized"}], as a service rejecting the token
    could answer on the read path. *)
Definition unauthorized_body : string :=
  "{" +:+ String dquote "type" +:+ String dquote ":" +:+ String dquote "unauthorized"
  +:+ String dquote "}".

(** What [LastPushesCtx] makes of the bytes [getRequest] returns. *)
Definition decoded_pushes (ParseFloat : string → option spec_float) (data : string)
    : list LastPush * option error :=
  match json_Unmarshal_LastPushes ParseFloat data [] with
  | (lastPushes, None) => (lastPushes, None)
  | (_, Some err) =>
      ([], Some (fmt_Errorf_w ("can't unmarshal response[" +:+ data +:+ "]: ") err))
  end.

(** ** Statements about the write path *)

(** [call] is a run of the write path on [kpis] and [forcePush]: a run of
    [InsertAll], or of [PushCtx] when the list is one record and
    [forcePush] is false. *)
Definition is_write_call (FormatFloat : spec_float → nat → string) (c : Client)
    (ctx : Context) (kpis : list KPI) (forcePush : bool)
    (call : exec (option ResponseStatus * option error)) : Prop :=
  call = InsertAll FormatFloat c ctx kpis forcePush
  ∨ (∃ kpi, kpis = [kpi] ∧ forcePush = false ∧ call = PushCtx FormatFloat c ctx kpi).

(** The error [postRequest] makes of a decoded [{type, message}]. *)
Definition api_error (rs : ResponseStatus) : error :=
  errors_New (ResponseStatus_Type rs +:+ ": " +:+ ResponseStatus_Message rs).

(** What the write path makes of the answer to [request], the bytes of
    the envelope being sent. *)
Definition write_outcome (request : Request) (response : result Response)
    : exec (option ResponseStatus * option error) :=
  let sending := fmt_Errorf_w "sending request: " in
  match response with
  | Err e => Returns [request] (None, Some (sending (fmt_Errorf_w "executing HTTP request: " e)))
  | Ok response =>
      match Response_Body response with
      | (_, Some e) =>
          Returns [request] (None, Some (sending (fmt_Errorf_w "reading response body: " e)))
      | (data, None) =>
          if decide (out_of_2xx (Response_StatusCode response)) then
            match json_Unmarshal_ResponseStatus data (Some zeroResponseStatus) with
            | (_, Some e) =>
                Returns [request]
                  (None, Some (sending (fmt_Errorf_w
                                          ("can't unmarshal data[" +:+ data +:+ "]: ") e)))
            | (Some rs, None) => Returns [request] (None, Some (sending (api_error rs)))
            | (None, None) => Panics [request] nil_dereference
            end
          else
            match json_Unmarshal_ResponseStatus data (Some zeroResponseStatus) with
            | (_, Some e) =>
                Returns [request]
                  (None, Some (fmt_Errorf_w
                                 ("can't unmarshal respoonse[" +:+ data +:+ "]: ") e))
            | (responseStatus, None) => Returns [request] (responseStatus, None)
            end
      end
  end.

(** The body [{"id":"1","type":"","message":"ok"}]. *)
Definition accepted_body : string :=
  "{" +:+ String dquote "id" +:+ String dquote ":" +:+ String dquote "1"
  +:+ String dquote "," +:+ String dquote "type" +:+ String dquote ":"
  +:+ String dquote "" +:+ String dquote "," +:+ String dquote "message"
  +:+ String dquote ":" +:+ String dquote "ok" +:+ String dquote "}".

(** An exchange that fails with [err] on every request. *)
Definition failing (err : error) : Request → result Response := λ _, Err err.

(** The error of a connection that was refused. *)
Definition refused : error :=
  urlError "Post" "https://push.databox.com/" "dial tcp: connection refused".

(** A status code moved within its class: 204 for a code in 200-299, 500
    for the others. *)
Definition flatten_status (code : Z) : Z :=
  if decide (out_of_2xx code) then 500%Z else 204%Z.

(** The errors of a write call on [kpis] and [forcePush] that sent [sent]:
    the encoder's error, with nothing sent, an error of [postRequest], or
    the decoder's error on a body that is not [null], each wrapped. *)
Definition write_error_shape (FormatFloat : spec_float → nat → string)
    (kpis : list KPI) (forcePush : bool) (sent : list Request) (err : error) : Prop :=
  ∃ e, (sent = [] ∧ (serializeKPIs FormatFloat kpis forcePush).2 = Some e
        ∧ err = fmt_Errorf_w "preparing request: " e)
       ∨ err = fmt_Errorf_w "sending request: " e
       ∨ (∃ data, parseJSON data ≠ Some JNull
                  ∧ err = fmt_Errorf_w ("can't unmarshal respoonse[" +:+ data +:+ "]: ") e).

(** [errors.Is(err, target)]: [target] is [err] or an error [err] wraps. *)
Fixpoint errors_Is (err target : error) : Prop :=
  err = target
  ∨ match err with
    | wrapError _ inner => errors_Is inner target
    | _ => False
    end.

(** The error of a context that was cancelled, as the HTTP client reports
    it. *)
Definition cancelled : error :=
  urlError "Get" "https://push.databox.com/lastpushes?limit=1" "context canceled".

(** The keys of the output of [ToJSONData]: the names of the attributes,
    the names of the metrics behind a [$], and [$Key], [date] and [unit]
    for the fields that are not empty. *)
Definition output_keys (kpi : KPI) : gset string :=
  (if decide (KPI_Unit kpi ≠ "") then {[ "unit" ]} else ∅)
  ∪ (if decide (KPI_Date kpi ≠ "") then {[ "date" ]} else ∅)
  ∪ (if decide (KPI_Key kpi ≠ "") then {[ dollar (KPI_Key kpi) ]} else ∅)
  ∪ set_map dollar (dom (KPI_Metrics kpi))
  ∪ dom (KPI_Attributes kpi).

(** A record with a date, a unit and attributes of the same names. *)
Definition dated_kpi : KPI :=
  {| KPI_Key := "date"; KPI_Value := float_5;
     KPI_Metrics := {[ "unit" := float_1 ]};
     KPI_Date := "2006-01-02"; KPI_Unit := "";
     KPI_Attributes := {[ "date" := VString "yesterday"; "unit" := VString "EUR" ]} |}.

(** The envelope of the encoded records [data], with or without [meta]. *)
Definition envelope (forcePush : bool) (data : list json) : json :=
  if forcePush then forced_envelope data else plain_envelope data.

(** An exchange that answers [code] and breaks off after the bytes [read]
    of the body with the error [err]. *)
Definition breaking_off (code : Z) (read : string) (err : error)
    : Request → result Response :=
  λ _, Ok {| Response_StatusCode := code; Response_Body := (read, Some err) |}.

(** The body of two push records without content, [[{}, {}]]. *)
Definition two_entries_body : string := "[{}, {}]".

(* ================================================================== *)
(** * Properties *)

(** ** The loops of [ToJSONData] *)

Section RangeStore.
Context {V : Type} (key : string → string) (box : V → value).
Context `{!Inj (=) (=) key}.

Lemma range_loop_store entries payload :
  foldl (λ payload '(k, v), <[key k := box v]> payload) payload entries
  = store_entries key box entries payload.
Proof.
  revert payload. induction entries as [|[k v] l IH]; intros payload; [done|].
  cbn. apply IH.
Qed.

Lemma store_entries_union entries payload :
  store_entries key box entries payload
  = list_to_map (prod_map key box <$> reverse entries) ∪ payload.
Proof.
  revert payload. induction entries as [|[k v] l IH]; intros payload.
  - cbn. by rewrite (left_id_L ∅ (∪)).
  - cbn [store_entries foldl fst snd].
    fold (store_entries key box l (<[key k:=box v]> payload)).
    rewrite IH, reverse_cons, fmap_app, list_to_map_app. cbn.
    by rewrite <-(assoc_L (∪)), insert_empty, <-insert_union_singleton_l.
Qed.

Lemma fst_prod_map (l : list (string * V)) :
  (prod_map key box <$> l).*1 = key <$> l.*1.
Proof. induction l as [|[] l IH]; [done|]. cbn. by rewrite IH. Qed.

(** The map a loop over [m] leaves behind, whatever the visiting order. *)
Lemma store_entries_range (m : gmap string V) entries payload :
  range_order m entries →
  store_entries key box entries payload = kmap key (box <$> m) ∪ payload.
Proof.
  unfold range_order. intros Hperm. rewrite store_entries_union. f_equal.
  assert (Hnd : NoDup (entries.*1)).
  { rewrite Hperm. apply NoDup_fst_map_to_list. }
  apply map_eq. intros j.
  destruct (kmap key (box <$> m) !! j) as [x|] eqn:Hj.
  - apply lookup_kmap_Some in Hj as (i & -> & Hi); [|done].
    rewrite lookup_fmap_Some in Hi. destruct Hi as (v & <- & Hv).
    apply elem_of_list_to_map_1.
    + rewrite fst_prod_map. apply (NoDup_fmap_2 _).
      by rewrite reverse_Permutation.
    + apply list_elem_of_fmap. exists (i, v). split; [done|].
      rewrite elem_of_reverse, Hperm. by apply elem_of_map_to_list.
  - apply not_elem_of_list_to_map_1. rewrite fst_prod_map. intros Hin.
    apply list_elem_of_fmap in Hin as (i & -> & Hin).
    apply list_elem_of_fmap in Hin as ([i' v] & -> & Hin).
    rewrite elem_of_reverse, Hperm in Hin. apply elem_of_map_to_list in Hin.
    cbn in Hj. rewrite lookup_kmap in Hj by done.
    by rewrite lookup_fmap, Hin in Hj.
Qed.
End RangeStore.

Global Instance dollar_inj : Inj (=) (=) dollar.
Proof. intros k1 k2 Heq. unfold dollar in Heq. by simplify_eq/=. Qed.

Lemma strip_dollar_dollar k : strip_dollar (dollar k) = Some k.
Proof. done. Qed.

Lemma strip_dollar_Some k m : strip_dollar k = Some m ↔ k = dollar m.
Proof.
  split; [|intros ->; apply strip_dollar_dollar].
  destruct k as [|c k]; [done|]. cbn. case_decide; [|done].
  intros [= ->]. by subst c.
Qed.

(** The output of [ToJSONData] in closed form: the attributes, overlaid by
    the metrics under their [$] keys, then the three conditional stores. *)
Lemma ToJSONData_ranged_closed attributes metrics kpi :
  range_order (KPI_Attributes kpi) attributes →
  range_order (KPI_Metrics kpi) metrics →
  ToJSONData_ranged attributes metrics kpi
  = store_fields kpi (kmap dollar (VFloat32 <$> KPI_Metrics kpi) ∪ KPI_Attributes kpi).
Proof.
  intros Ha Hm. unfold ToJSONData_ranged, store_fields.
  change (λ (payload : gmap string value) '(key, value), <[key:=value]> payload)
    with (λ (payload : gmap string value) '(key, value), <[id key:=id value]> payload).
  rewrite (range_loop_store id id), (range_loop_store dollar VFloat32).
  rewrite (store_entries_range id id _ _ _ Ha), (store_entries_range dollar VFloat32 _ _ _ Hm).
  rewrite (right_id_L ∅ (∪)).
  replace (kmap id (id <$> KPI_Attributes kpi)) with (KPI_Attributes kpi); [done|].
  apply map_eq. intros i. symmetry.
  etrans; [exact (lookup_kmap id (id <$> KPI_Attributes kpi) i)|].
  by rewrite lookup_fmap, option_fmap_id.
Qed.

Lemma ToJSONData_closed kpi :
  ToJSONData kpi
  = store_fields kpi (kmap dollar (VFloat32 <$> KPI_Metrics kpi) ∪ KPI_Attributes kpi).
Proof. by apply ToJSONData_ranged_closed; unfold range_order. Qed.

(** The order in which the two loops visit the maps does not show in the
    output. *)
Lemma ToJSONData_any_order attributes metrics kpi :
  range_order (KPI_Attributes kpi) attributes →
  range_order (KPI_Metrics kpi) metrics →
  ToJSONData_ranged attributes metrics kpi = ToJSONData kpi.
Proof.
  intros Ha Hm. by rewrite ToJSONData_closed, (ToJSONData_ranged_closed _ _ _ Ha Hm).
Qed.

Lemma lookup_overlay kpi k :
  (kmap dollar (VFloat32 <$> KPI_Metrics kpi) ∪ KPI_Attributes kpi) !! k
  = match strip_dollar k ≫= (KPI_Metrics kpi !!.) with
    | Some v => Some (VFloat32 v)
    | None => KPI_Attributes kpi !! k
    end.
Proof.
  rewrite lookup_union.
  destruct (strip_dollar k) as [m|] eqn:Hk; cbn.
  - apply strip_dollar_Some in Hk as ->.
    rewrite lookup_kmap by apply _. rewrite lookup_fmap.
    destruct (KPI_Metrics kpi !! m); cbn; [|by destruct (KPI_Attributes kpi !! dollar m)].
    by destruct (KPI_Attributes kpi !! dollar m).
  - assert (kmap dollar (VFloat32 <$> KPI_Metrics kpi) !! k = None) as ->.
    { apply lookup_kmap_None; [apply _|]. intros m ->.
      by rewrite strip_dollar_dollar in Hk. }
    by destruct (KPI_Attributes kpi !! k).
Qed.

Lemma lookup_guarded_insert (P : Prop) `{!Decision P} (k' k : string) (v : value)
    (m : gmap string value) :
  (if decide P then <[k' := v]> m else m) !! k
  = if decide (P ∧ k = k') then Some v else m !! k.
Proof.
  destruct (decide P) as [HP|HP]; destruct (decide (P ∧ k = k')) as [[? ->]|Hne];
    try done.
  - by rewrite lookup_insert_eq.
  - rewrite lookup_insert_ne; [done|]. intros <-. by apply Hne.
Qed.

(** Every entry of the output, for every key. *)
Lemma ToJSONData_lookup kpi k : ToJSONData kpi !! k = output_at kpi k.
Proof.
  rewrite ToJSONData_closed. unfold store_fields, output_at.
  rewrite !lookup_guarded_insert. by rewrite lookup_overlay.
Qed.

(** ** C1: what [ToJSONData] stores, and which store wins *)

(** C1, as stated, fails: with [Key = "x"], the metric [x] and the
    attribute [$x], the output holds [Value] under [$x], not the metrics
    value. *)
Lemma C1_counterexample_Key_overrides_metric : ¬ metrics_value_wins collision_kpi.
Proof.
  intros Hwins.
  specialize (Hwins "x" float_1 (VString "attribute") eq_refl eq_refl).
  vm_compute in Hwins. discriminate Hwins.
Qed.

(** C1, amended.  Whatever the order in which the loops visit the maps, the
    output of [ToJSONData] is the attributes, overwritten by the metrics
    under their [$] keys, overwritten by [Value] under [$Key] when [Key] is
    not empty (and then by [date] and [unit]): an attribute that no later
    store writes over is copied verbatim; a metric is found under its [$]
    key unless [Key] names it; [Value] is found under [$Key]; and where an
    attribute and a metric collide, the output holds the metrics value, or
    [Value] if [Key] is not empty and names that metric -- never the
    attribute. *)
Theorem C1_ToJSONData_precedence attributes metrics kpi :
  range_order (KPI_Attributes kpi) attributes →
  range_order (KPI_Metrics kpi) metrics →
  let out := ToJSONData_ranged attributes metrics kpi in
  (∀ k, out !! k = output_at kpi k)
  ∧ (∀ k a, KPI_Attributes kpi !! k = Some a → not_overwritten kpi k → out !! k = Some a)
  ∧ (∀ m v, KPI_Metrics kpi !! m = Some v → KPI_Key kpi = "" ∨ KPI_Key kpi ≠ m →
       out !! dollar m = Some (VFloat32 v))
  ∧ (KPI_Key kpi ≠ "" → out !! dollar (KPI_Key kpi) = Some (VFloat32 (KPI_Value kpi)))
  ∧ (∀ m v a, KPI_Metrics kpi !! m = Some v → KPI_Attributes kpi !! dollar m = Some a →
       out !! dollar m
       = Some (VFloat32 (if decide (KPI_Key kpi ≠ "" ∧ KPI_Key kpi = m)
                         then KPI_Value kpi else v))).
Proof.
  intros Ha Hm out.
  assert (Hout : ∀ k, out !! k = output_at kpi k).
  { intros k. unfold out. rewrite (ToJSONData_any_order _ _ _ Ha Hm).
    apply ToJSONData_lookup. }
  assert (Hmetric : ∀ m v, KPI_Metrics kpi !! m = Some v →
            out !! dollar m
            = Some (VFloat32 (if decide (KPI_Key kpi ≠ "" ∧ KPI_Key kpi = m)
                              then KPI_Value kpi else v))).
  { intros m v Hv. rewrite Hout. unfold output_at.
    rewrite decide_False by (by intros [_ ?]).
    rewrite decide_False by (by intros [_ ?]).
    destruct (decide (KPI_Key kpi ≠ "" ∧ KPI_Key kpi = m)) as [[Hne <-]|Hno].
    - by rewrite decide_True.
    - rewrite decide_False.
      + rewrite strip_dollar_dollar. cbn. by rewrite Hv.
      + intros [Hne Heq]. apply Hno. split; [done|]. by apply (inj dollar). }
  split_and!; [done| | | |].
  - intros k a Hk (Hmet & Hkey & Hdate & Hunit). rewrite Hout. unfold output_at.
    rewrite !decide_False by done. by rewrite Hmet.
  - intros m v Hv Hkey. rewrite (Hmetric _ _ Hv).
    rewrite decide_False; [done|]. intros [Hne Heq]. by destruct Hkey.
  - intros Hne. rewrite Hout. unfold output_at.
    rewrite decide_False by (by intros [_ ?]).
    rewrite decide_False by (by intros [_ ?]).
    by rewrite decide_True.
  - intros m v a Hv _. by apply Hmetric.
Qed.

(** The theorem at [collision_kpi] and at [keyless_kpi], its maps visited
    in an order that is not the one of [map_to_list]. *)
Lemma C1_ToJSONData_precedence_witness :
  ToJSONData collision_kpi !! "$x" = Some (VFloat32 float_2)
  ∧ ToJSONData_ranged [("country", VString "US"); ("$a", VBool true)]
                      [("b", float_2); ("a", float_1)] keyless_kpi !! "$a"
    = Some (VFloat32 float_1).
Proof.
  split.
  - apply (C1_ToJSONData_precedence (map_to_list (KPI_Attributes collision_kpi))
             (map_to_list (KPI_Metrics collision_kpi)) collision_kpi);
      [unfold range_order; reflexivity | unfold range_order; reflexivity
      | vm_compute; discriminate].
  - apply (C1_ToJSONData_precedence [("country", VString "US"); ("$a", VBool true)]
             [("b", float_2); ("a", float_1)] keyless_kpi).
    + unfold range_order. vm_compute. first [reflexivity | apply perm_swap].
    + unfold range_order. vm_compute. first [reflexivity | apply perm_swap].
    + reflexivity.
    + left. reflexivity.
Defined.

(** ** The envelope [serializeKPIs] builds *)

Lemma foldl_append_Data {A} (f : A → gmap string value) (l : list A) wrap data :
  KPIWrap_Data wrap = Some data →
  foldl (λ wrap a, append_Data wrap (f a)) wrap l
  = {| KPIWrap_Data := Some (data ++ (f <$> l))%list; KPIWrap_Meta := KPIWrap_Meta wrap |}.
Proof.
  revert wrap data. induction l as [|a l IH]; intros [d m] data; cbn; intros ->.
  - by rewrite (right_id_L [] (++)%list).
  - rewrite (IH _ (data ++ [f a])%list) by done. cbn. by rewrite <-(assoc_L (++)%list).
Qed.

(** The envelope holds the outputs of [ToJSONData] in the order of the
    records, in a slice that is never nil, and [Meta] is set exactly when
    [forcePush] is. *)
Lemma wrapKPIs_closed kpis forcePush :
  wrapKPIs kpis forcePush
  = {| KPIWrap_Data := Some (ToJSONData <$> kpis);
       KPIWrap_Meta := if forcePush then Some {[ "ensure_unique" := VBool true ]}
                       else None |}.
Proof.
  unfold wrapKPIs. rewrite (foldl_append_Data ToJSONData kpis _ []).
  - by destruct forcePush.
  - by destruct forcePush.
Qed.

Lemma wrapKPIs_ranged_any_order orders kpis forcePush :
  range_orders kpis orders →
  wrapKPIs_ranged orders kpis forcePush = wrapKPIs kpis forcePush.
Proof.
  unfold wrapKPIs_ranged, wrapKPIs, range_orders. generalize (initWrap forcePush).
  intros wrap Horders. revert wrap.
  induction Horders as [|kpi o kpis orders [Ha Hm] _ IH]; intros wrap; [done|].
  cbn. rewrite (ToJSONData_any_order _ _ _ Ha Hm). apply IH.
Qed.

(** ** C9: serialisation is a function of the record *)

(** C9.  The output of [ToJSONData] and the bytes of [serializeKPIs] are
    fixed by the records and [forcePush]: two runs that visit the maps of
    the records in different orders, the one freedom Go leaves to a run,
    yield the same output object for each record and the same bytes (or the
    same error) for the list. *)
Theorem C9_serialization_deterministic FormatFloat kpis orders orders' forcePush :
  range_orders kpis orders →
  range_orders kpis orders' →
  (∀ i kpi o o', kpis !! i = Some kpi → orders !! i = Some o → orders' !! i = Some o' →
     ToJSONData_ranged o.1 o.2 kpi = ToJSONData_ranged o'.1 o'.2 kpi)
  ∧ serializeKPIs_ranged FormatFloat orders kpis forcePush
    = serializeKPIs_ranged FormatFloat orders' kpis forcePush.
Proof.
  intros Ho Ho'. split.
  - intros i kpi o o' Hkpi Hio Hio'.
    destruct (Forall2_lookup_lr _ _ _ _ _ _ Ho Hkpi Hio) as [Ha Hm].
    destruct (Forall2_lookup_lr _ _ _ _ _ _ Ho' Hkpi Hio') as [Ha' Hm'].
    by rewrite (ToJSONData_any_order _ _ _ Ha Hm), (ToJSONData_any_order _ _ _ Ha' Hm').
  - unfold serializeKPIs_ranged.
    by rewrite (wrapKPIs_ranged_any_order _ _ _ Ho), (wrapKPIs_ranged_any_order _ _ _ Ho').
Qed.

(** The theorem at [keyless_kpi], serialised twice with its maps visited in
    opposite orders. *)
Lemma C9_serialization_deterministic_witness :
  serializeKPIs_ranged exactDecimal
    [([("country", VString "US"); ("$a", VBool true)], [("b", float_2); ("a", float_1)])]
    [keyless_kpi] true
  = serializeKPIs_ranged exactDecimal
      [([("$a", VBool true); ("country", VString "US")], [("a", float_1); ("b", float_2)])]
      [keyless_kpi] true.
Proof.
  apply (C9_serialization_deterministic exactDecimal [keyless_kpi]).
  - constructor; [|constructor].
    split; unfold range_order; vm_compute; first [reflexivity | apply perm_swap].
  - constructor; [|constructor].
    split; unfold range_order; vm_compute; first [reflexivity | apply perm_swap].
Defined.

(** ** C10: [Value] without [Key] *)

Lemma ToJSONData_ranged_with_Value attributes metrics v kpi :
  KPI_Key kpi = "" →
  ToJSONData_ranged attributes metrics (with_Value v kpi)
  = ToJSONData_ranged attributes metrics kpi.
Proof.
  intros Hkey. unfold ToJSONData_ranged, with_Value. cbn. rewrite Hkey.
  by rewrite !(decide_False (P := "" ≠ "")) by (by intros ?).
Qed.

(** C10.  When [Key] is empty, [Value] has no part in the output: the
    output object, and the bytes or the error of [serializeKPIs] for any
    list the record stands in, are the same whatever [Value] is (a NaN
    included, which is not rejected), and every entry of the output is the
    unit, the date, a metric or an attribute. *)
Theorem C10_Value_dropped_without_Key FormatFloat kpi v before after forcePush :
  KPI_Key kpi = "" →
  ToJSONData (with_Value v kpi) = ToJSONData kpi
  ∧ serializeKPIs FormatFloat (before ++ with_Value v kpi :: after) forcePush
    = serializeKPIs FormatFloat (before ++ kpi :: after) forcePush
  ∧ (∀ k x, ToJSONData kpi !! k = Some x →
       (k = "unit" ∧ x = VString (KPI_Unit kpi)) ∨ (k = "date" ∧ x = VString (KPI_Date kpi))
       ∨ (∃ m w, k = dollar m ∧ KPI_Metrics kpi !! m = Some w ∧ x = VFloat32 w)
       ∨ KPI_Attributes kpi !! k = Some x).
Proof.
  intros Hkey.
  assert (Heq : ToJSONData (with_Value v kpi) = ToJSONData kpi).
  { unfold ToJSONData. cbn. by apply ToJSONData_ranged_with_Value. }
  split_and!; [done| |].
  - unfold serializeKPIs. rewrite !wrapKPIs_closed, !fmap_app, !fmap_cons. by rewrite Heq.
  - intros k x. rewrite ToJSONData_lookup. unfold output_at.
    repeat case_decide; destruct_and?; try congruence.
    + intros [= <-]. by left.
    + intros [= <-]. right. by left.
    + destruct (strip_dollar k) as [m|] eqn:Hk; cbn; [|by do 3 right].
      apply strip_dollar_Some in Hk as ->.
      destruct (KPI_Metrics kpi !! m) as [w|] eqn:Hm; [|by do 3 right].
      intros [= <-]. do 2 right. left. by exists m, w.
Qed.

(** The theorem at [keyless_kpi], whose [Value] is 5, against the same
    record with a NaN for [Value]. *)
Lemma C10_Value_dropped_without_Key_witness :
  serializeKPIs exactDecimal ([visits_kpi] ++ with_Value S754_nan keyless_kpi :: []) false
  = serializeKPIs exactDecimal ([visits_kpi] ++ keyless_kpi :: []) false.
Proof.
  apply (C10_Value_dropped_without_Key exactDecimal keyless_kpi S754_nan
           [visits_kpi] [] false).
  reflexivity.
Defined.

(** ** What the encoder accepts *)

Lemma value_size_elem l v : v ∈ l → value_size v < value_size (VSlice l).
Proof.
  cbn. induction 1 as [v l|v w l _ IH]; cbn; lia.
Qed.

Lemma value_size_lookup (m : gmap string value) k v :
  m !! k = Some v → value_size v < value_size (VMap m).
Proof.
  intros Hk. cbn. rewrite <-(insert_delete_id m k v Hk).
  rewrite map_fold_insert_L; [lia| |apply lookup_delete_eq].
  intros. lia.
Qed.

Lemma marshalable_lookup (m : gmap string value) k v :
  marshalable (VMap m) = true → m !! k = Some v → marshalable v = true.
Proof.
  intros Hm Hk. cbn in Hm. rewrite <-(insert_delete_id m k v Hk) in Hm.
  rewrite map_fold_insert_L in Hm.
  - by apply andb_true_iff in Hm as [? _].
  - intros. by destruct (marshalable z1), (marshalable z2).
  - apply lookup_delete_eq.
Qed.

Lemma collect_Ok {A} (rs : list (result A)) :
  Forall (λ r, ∃ a, r = Ok a) rs → ∃ l, collect rs = Ok l ∧ length l = length rs.
Proof.
  induction 1 as [|r rs [a ->] _ (l & Hl & Hlen)]; [by exists []|].
  exists (a :: l). cbn. rewrite Hl. cbn. by rewrite Hlen.
Qed.

Lemma collect_members_Ok {A} (rs : list (string * result A)) :
  Forall (λ kr, ∃ a, kr.2 = Ok a) rs → ∃ l, collect_members rs = Ok l.
Proof.
  induction 1 as [|[k r] rs [a Ha] _ [l Hl]]; [by exists []|].
  cbn in Ha. subst r. exists ((k, a) :: l). cbn. by rewrite Hl.
Qed.

Lemma collect_Ok_inv {A} (rs : list (result A)) l :
  collect rs = Ok l → Forall (λ r, ∃ a, r = Ok a) rs.
Proof.
  revert l. induction rs as [|[a|e] rs IH]; intros l; cbn; [done| |done].
  destruct (collect rs) as [l'|e] eqn:Hrs; [|done].
  intros _. constructor; [by exists a|by apply (IH l')].
Qed.

Lemma collect_members_Ok_inv {A} (rs : list (string * result A)) l :
  collect_members rs = Ok l → Forall (λ kr, ∃ a, kr.2 = Ok a) rs.
Proof.
  revert l. induction rs as [|[k [a|e]] rs IH]; intros l; cbn; [done| |done].
  destruct (collect_members rs) as [l'|e] eqn:Hrs; [|done].
  intros _. constructor; [by exists a|by apply (IH l')].
Qed.

Lemma marshalable_map (m : gmap string value) :
  (∀ k v, m !! k = Some v → marshalable v = true) → marshalable (VMap m) = true.
Proof.
  cbn.
  apply (map_fold_weak_ind
           (λ b (m : gmap string value),
              (∀ k v, m !! k = Some v → marshalable v = true) → b = true)); [done|].
  intros i x m' r Hi IH Hall.
  rewrite (Hall i x) by apply lookup_insert_eq. cbn. apply IH.
  intros k v Hk. apply (Hall k v). rewrite lookup_insert_ne; [done|].
  intros <-. by rewrite Hi in Hk.
Qed.

Section Encoder.
Variable FormatFloat : spec_float → nat → string.

Lemma floatEncoder_finite bits f :
  is_finite f = true → ∃ j, floatEncoder FormatFloat bits f = Ok j.
Proof. destruct f; try done; by eexists. Qed.

Lemma sorted_entries_Ok (m : gmap string value) :
  (∀ k v, m !! k = Some v → ∃ j, encodeValue FormatFloat v = Ok j) →
  ∃ members, collect_members (sorted_entries (encodeValue FormatFloat <$> m)) = Ok members.
Proof.
  intros Hm. apply collect_members_Ok. unfold sorted_entries.
  rewrite merge_sort_Permutation. apply Forall_forall. intros [k r] Hin.
  apply elem_of_map_to_list in Hin. rewrite lookup_fmap in Hin.
  destruct (m !! k) as [v|] eqn:Hk; [|done]. cbn in Hin. injection Hin as <-.
  by apply (Hm k).
Qed.

(** A marshalable value is encoded without error. *)
Lemma marshalable_encodes v :
  marshalable v = true → ∃ j, encodeValue FormatFloat v = Ok j.
Proof.
  remember (value_size v) as n eqn:Hn. revert v Hn.
  induction (lt_wf n) as [n _ IH]. intros v -> Hv.
  destruct v as [|b|z|f|f|s|l|m|ty].
  - by exists JNull.
  - by exists (JBool b).
  - by exists (JNum (pretty z)).
  - by apply floatEncoder_finite.
  - by apply floatEncoder_finite.
  - by exists (JStr s).
  - cbn. destruct (collect_Ok (encodeValue FormatFloat <$> l)) as (js & -> & _);
      [|by exists (JArr js)].
    apply Forall_fmap, Forall_forall. intros v Hin. cbn.
    apply (IH _ (value_size_elem _ _ Hin) v eq_refl).
    cbn in Hv. rewrite forallb_forall in Hv. apply Hv. by apply list_elem_of_In.
  - cbn. destruct (sorted_entries_Ok m) as [members ->]; [|by exists (JObj members)].
    intros k v Hk. apply (IH _ (value_size_lookup _ _ _ Hk) v eq_refl).
    by apply (marshalable_lookup m k).
  - done.
Qed.

Lemma encodeMap_Ok (m : gmap string value) :
  map_Forall (λ _ v, marshalable v = true) m →
  ∃ members, encodeMap FormatFloat m = Ok (JObj members).
Proof.
  intros Hm. unfold encodeMap.
  destruct (sorted_entries_Ok m) as [members ->]; [|by eexists].
  intros k v Hk. apply marshalable_encodes. by apply (Hm k).
Qed.

Lemma sorted_entries_Ok_inv (m : gmap string value) members :
  collect_members (sorted_entries (encodeValue FormatFloat <$> m)) = Ok members →
  ∀ k v, m !! k = Some v → ∃ j, encodeValue FormatFloat v = Ok j.
Proof.
  intros Hm k v Hk. apply collect_members_Ok_inv in Hm. unfold sorted_entries in Hm.
  rewrite merge_sort_Permutation in Hm. rewrite Forall_forall in Hm.
  apply (Hm (k, encodeValue FormatFloat v)).
  apply elem_of_map_to_list. by rewrite lookup_fmap, Hk.
Qed.

(** ... and only a marshalable value is. *)
Lemma encodes_marshalable v j :
  encodeValue FormatFloat v = Ok j → marshalable v = true.
Proof.
  remember (value_size v) as n eqn:Hn. revert v j Hn.
  induction (lt_wf n) as [n _ IH]. intros v j -> Hv.
  destruct v as [|b|z|f|f|s|l|m|ty]; try done.
  - by destruct f as [|[]| |].
  - by destruct f as [|[]| |].
  - cbn in Hv. destruct (collect (encodeValue FormatFloat <$> l)) as [js|e] eqn:Hl; [|done].
    apply collect_Ok_inv in Hl. cbn. apply forallb_forall. intros v Hin.
    apply list_elem_of_In in Hin. rewrite Forall_fmap, Forall_forall in Hl.
    destruct (Hl v Hin) as [jv Hjv].
    by apply (IH _ (value_size_elem _ _ Hin) v jv eq_refl).
  - cbn in Hv.
    destruct (collect_members (sorted_entries (encodeValue FormatFloat <$> m)))
      as [ms|e] eqn:Hm; [|done].
    apply marshalable_map. intros k v Hk.
    destruct (sorted_entries_Ok_inv m ms Hm k v Hk) as [jv Hjv].
    by apply (IH _ (value_size_lookup _ _ _ Hk) v jv eq_refl).
Qed.

Lemma encodeMap_Ok_inv (m : gmap string value) j :
  encodeMap FormatFloat m = Ok j → map_Forall (λ _ v, marshalable v = true) m.
Proof.
  unfold encodeMap. intros Hm k v Hk.
  destruct (collect_members (sorted_entries (encodeValue FormatFloat <$> m)))
    as [ms|e] eqn:Hms; [|done].
  destruct (sorted_entries_Ok_inv m ms Hms k v Hk) as [jv Hjv].
  by apply (encodes_marshalable v jv).
Qed.

Lemma encode_meta :
  encodeMap FormatFloat {[ "ensure_unique" := VBool true ]}
  = Ok (JObj [("ensure_unique", JBool true)]).
Proof. reflexivity. Qed.
End Encoder.

(** ** The scenarios of the spec, run *)

(** [{key:"visits", value:42, unit:"count"}] gives
    [{"data":[{"$visits":42,"unit":"count"}]}]. *)
Example scenario_visits :
  serializeKPIs exactDecimal [visits_kpi] false
  = (render (plain_envelope [JObj [("$visits", JNum "42"); ("unit", JStr "count")]]), None)
  ∧ parseJSON (serializeKPIs exactDecimal [visits_kpi] false).1
    = Some (plain_envelope [JObj [("$visits", JNum "42"); ("unit", JStr "count")]]).
Proof. split; vm_compute; reflexivity. Qed.

(** Attributes [{"country":"US"}] and metrics [{"sales":100}] give the
    members [$sales] and [country], which the encoder writes in the order
    of their keys. *)
Example scenario_sales :
  serializeKPIs exactDecimal [sales_kpi] true
  = (render (forced_envelope [JObj [("$sales", JNum "100"); ("country", JStr "US")]]), None).
Proof. vm_compute. reflexivity. Qed.

(** The headers of a request: the user agent, the media type of the major
    version, the content type and the basic authentication of the token. *)
Example scenario_headers :
  let header := databox_header (NewClient (answering 200 "{}") "Aladdin") in
  header !! "User-Agent" = Some ["databox-go/2.1.0"]
  ∧ header !! "Accept" = Some ["application/vnd.databox.v2+json"]
  ∧ header !! "Content-Type" = Some ["application/json"]
  ∧ header !! "Authorization" = Some ["Basic QWxhZGRpbjo="]
  ∧ size header = 4.
Proof. cbv zeta. split_and!; vm_compute; reflexivity. Qed.

(** ** C6 and C8: the envelope and its [meta] *)

Section Envelope.
Variable FormatFloat : spec_float → nat → string.

Lemma encode_records kpis :
  Forall encodable kpis →
  ∃ data, collect (encodeMap FormatFloat <$> (ToJSONData <$> kpis)) = Ok data
          ∧ length data = length kpis.
Proof.
  intros Hkpis.
  destruct (collect_Ok (encodeMap FormatFloat <$> (ToJSONData <$> kpis)))
    as (data & Hdata & Hlen).
  - apply Forall_fmap, Forall_fmap. eapply Forall_impl; [exact Hkpis|].
    intros kpi Hkpi. cbn. destruct (encodeMap_Ok FormatFloat _ Hkpi) as [ms ->].
    by eexists.
  - exists data. split; [done|]. by rewrite Hlen, !length_fmap.
Qed.

(** The document of an envelope whose records are all encoded. *)
Lemma serializeKPIs_encodable kpis forcePush :
  Forall encodable kpis →
  ∃ data, length data = length kpis
    ∧ collect (encodeMap FormatFloat <$> (ToJSONData <$> kpis)) = Ok data
    ∧ serializeKPIs FormatFloat kpis forcePush
      = (render (if forcePush then forced_envelope data else plain_envelope data), None).
Proof.
  intros Hkpis. destruct (encode_records kpis Hkpis) as (data & Hdata & Hlen).
  exists data. split_and!; [done..|].
  unfold serializeKPIs, json_Marshal, encodeKPIWrap. rewrite wrapKPIs_closed. cbn.
  rewrite Hdata. by destruct forcePush.
Qed.

(** [serializeKPIs] returns bytes exactly for the lists whose records are
    all encodable; for the others it returns the encoder's error, whatever
    [forcePush] is. *)
Lemma serializeKPIs_no_error_iff kpis forcePush :
  (serializeKPIs FormatFloat kpis forcePush).2 = None ↔ Forall encodable kpis.
Proof.
  split.
  - unfold serializeKPIs, json_Marshal, encodeKPIWrap. rewrite wrapKPIs_closed. cbn.
    destruct (collect (encodeMap FormatFloat <$> (ToJSONData <$> kpis)))
      as [data|e] eqn:Hdata; [|done].
    intros _. apply collect_Ok_inv in Hdata. rewrite !Forall_fmap in Hdata.
    eapply Forall_impl; [exact Hdata|]. intros kpi [j Hj]. cbn in Hj.
    by apply (encodeMap_Ok_inv FormatFloat _ j).
  - intros Hkpis.
    destruct (serializeKPIs_encodable kpis forcePush Hkpis) as (data & _ & _ & ->).
    done.
Qed.
End Envelope.

(** C6, as stated, fails: a record whose [Value] is NaN makes
    [json.Marshal] fail, and [serializeKPIs] returns the error and no
    envelope, whatever [forcePush] is. *)
Lemma C6_counterexample_NaN_record : ¬ produces_envelopes exactDecimal [nan_kpi].
Proof.
  intros (data & Htrue & _).
  assert (Hnan : serializeKPIs exactDecimal [nan_kpi] true
                 = ("", Some (UnsupportedValueError "NaN"))) by (vm_compute; reflexivity).
  rewrite Hnan in Htrue. discriminate Htrue.
Qed.

(** C6, amended.  For every list of records that [json.Marshal] can encode
    (no NaN, no infinity and no value of an unsupported type among the
    entries [ToJSONData] emits), serializing with [forcePush = true] yields
    the bytes of an envelope with the records under [data] and
    [ensure_unique] set to [true] under [meta], and serializing with
    [forcePush = false] yields the bytes of an envelope with the same
    [data] and no [meta] member at all; the [Meta] map handed to
    [json.Marshal] is the one-entry map in the first case and nil in the
    second. *)
Theorem C6_meta_follows_forcePush FormatFloat kpis :
  Forall encodable kpis →
  KPIWrap_Meta (wrapKPIs kpis true) = Some {[ "ensure_unique" := VBool true ]}
  ∧ KPIWrap_Meta (wrapKPIs kpis false) = None
  ∧ ∃ data,
      length data = length kpis
      ∧ serializeKPIs FormatFloat kpis true = (render (forced_envelope data), None)
      ∧ serializeKPIs FormatFloat kpis false = (render (plain_envelope data), None)
      ∧ member "meta" (forced_envelope data) = Some (JObj [("ensure_unique", JBool true)])
      ∧ member_names (plain_envelope data) = ["data"].
Proof.
  intros Hkpis. rewrite !wrapKPIs_closed. split_and!; [done..|].
  destruct (serializeKPIs_encodable FormatFloat kpis true Hkpis) as (data & Hlen & Hdata & Ht).
  destruct (serializeKPIs_encodable FormatFloat kpis false Hkpis) as (data' & _ & Hdata' & Hf).
  rewrite Hdata in Hdata'. injection Hdata' as <-.
  exists data. by split_and!.
Qed.

(** The theorem at the list of [visits_kpi] and [keyless_kpi]. *)
Lemma C6_meta_follows_forcePush_witness :
  ∃ data,
    length data = 2
    ∧ serializeKPIs exactDecimal [visits_kpi; keyless_kpi] true
      = (render (forced_envelope data), None)
    ∧ serializeKPIs exactDecimal [visits_kpi; keyless_kpi] false
      = (render (plain_envelope data), None)
    ∧ member "meta" (forced_envelope data) = Some (JObj [("ensure_unique", JBool true)])
    ∧ member_names (plain_envelope data) = ["data"].
Proof.
  apply (C6_meta_follows_forcePush exactDecimal [visits_kpi; keyless_kpi]).
  constructor; [|constructor; [|constructor]];
    apply (bool_decide_unpack _); vm_compute; exact I.
Defined.

(** ** The requests of the client *)

Lemma all_chars_app P s1 s2 :
  all_chars P (s1 +:+ s2) = all_chars P s1 && all_chars P s2.
Proof.
  induction s1 as [|c s1 IH]; [done|]. simpl. rewrite IH. by destruct (P c).
Qed.

Lemma pretty_N_go_chars P x s :
  (∀ d, P (pretty_N_char d) = true) → all_chars P s = true →
  all_chars P (pretty_N_go x s) = true.
Proof.
  intros Hdigit. revert s. induction (N.lt_wf_0 x) as [x _ IH]; intros s Hs.
  assert (x = 0 ∨ 0 < x)%N as [->|Hpos] by lia; [by rewrite pretty_N_go_0|].
  rewrite pretty_N_go_step by done. apply IH; [by apply N.div_lt|].
  cbn. by rewrite Hdigit, Hs.
Qed.

(** [%d] prints digits and, at most, a minus sign. *)
Lemma pretty_Z_chars P (n : Z) :
  (∀ d, P (pretty_N_char d) = true) → P "-"%char = true →
  all_chars P (pretty n) = true.
Proof.
  intros Hdigit Hminus.
  assert (H0 : all_chars P "0" = true).
  { change (P (pretty_N_char 0) && true = true). by rewrite Hdigit. }
  assert (HN : ∀ x : N, all_chars P (pretty x) = true).
  { intros x. unfold pretty, pretty_N. case_decide; [done|].
    by apply pretty_N_go_chars. }
  destruct n as [|p|p].
  - done.
  - apply (HN (Npos p)).
  - change (P "-"%char && all_chars P (pretty (Npos p)) = true).
    by rewrite Hminus, HN.
Qed.

Lemma digit_not_control d : negb (is_control (pretty_N_char d)) = true.
Proof. unfold pretty_N_char. by repeat case_match. Qed.

(** Neither request can fail to be built. *)
Lemma post_request_built ctx payload :
  http_NewRequestWithContext ctx "POST" (apiURL +:+ "/") (Some payload)
  = Ok (mkRequest "POST" (apiURL +:+ "/") ∅ (Some payload) ctx).
Proof. reflexivity. Qed.

Lemma get_request_built ctx n :
  http_NewRequestWithContext ctx "GET" (apiURL +:+ lastpushes_path n) None
  = Ok (mkRequest "GET" (apiURL +:+ lastpushes_path n) ∅ None ctx).
Proof.
  unfold http_NewRequestWithContext.
  replace (negb _) with false by reflexivity.
  rewrite all_chars_app. unfold lastpushes_path. rewrite all_chars_app.
  rewrite (pretty_Z_chars _ n digit_not_control eq_refl). reflexivity.
Qed.

Lemma postRequest_root c ctx payload :
  postRequest c ctx "/" payload
  = post_outcome (databox_request c ctx "POST" "/" (Some payload))
      (Client_HTTPClient c (databox_request c ctx "POST" "/" (Some payload))).
Proof.
  unfold postRequest. rewrite post_request_built. cbv zeta.
  match goal with |- context [Client_Do c ?r] =>
    change r with (databox_request c ctx "POST" "/" (Some payload)) end.
  unfold Client_Do, post_outcome, out_of_2xx. cbn.
  destruct (Client_HTTPClient c _) as [[code [data [err|]]]|err]; cbn; try done.
  case_decide; [|done].
  by destruct (json_Unmarshal_ResponseStatus data _) as [[rs|] [err|]].
Qed.

Lemma getRequest_lastpushes c ctx n :
  getRequest c ctx (lastpushes_path n)
  = get_outcome (databox_request c ctx "GET" (lastpushes_path n) None)
      (Client_HTTPClient c (databox_request c ctx "GET" (lastpushes_path n) None)).
Proof.
  unfold getRequest. rewrite get_request_built. cbv zeta.
  match goal with |- context [Client_Do c ?r] =>
    change r with (databox_request c ctx "GET" (lastpushes_path n) None) end.
  unfold Client_Do, get_outcome. cbn.
  by destruct (Client_HTTPClient c _) as [[code [data [err|]]]|err].
Qed.

(** ** C2: the host of the requests *)

(** [PushHost] has no part in any operation: the requests sent and the
    results are the same whatever it is set to. *)
Lemma operations_ignore_PushHost FormatFloat ParseFloat host c ctx kpi kpis forcePush n :
  PushCtx FormatFloat (with_PushHost host c) ctx kpi = PushCtx FormatFloat c ctx kpi
  ∧ InsertAll FormatFloat (with_PushHost host c) ctx kpis forcePush
    = InsertAll FormatFloat c ctx kpis forcePush
  ∧ LastPushesCtx ParseFloat (with_PushHost host c) ctx n = LastPushesCtx ParseFloat c ctx n
  ∧ LastPushCtx ParseFloat (with_PushHost host c) ctx = LastPushCtx ParseFloat c ctx.
Proof. by split_and!. Qed.

(** C2 fails on the code.  A client whose [PushHost] is
    [http://localhost:8080] sends the requests of [Push], [InsertAll],
    [LastPushes] and [LastPush] to [https://push.databox.com], the constant
    [apiURL]: [postRequest] and [getRequest] never read [PushHost]. *)
Theorem C2_PushHost_is_ignored :
  let c := local_client 200 "{}" in
  Client_PushHost c = "http://localhost:8080"
  ∧ Request_URL <$> sent (Push exactDecimal c visits_kpi) = ["https://push.databox.com/"]
  ∧ Request_URL <$> sent (InsertAll exactDecimal c context_Background [visits_kpi] true)
    = ["https://push.databox.com/"]
  ∧ Request_URL <$> sent (LastPushes parseSmallInt c 3)
    = ["https://push.databox.com/lastpushes?limit=3"]
  ∧ Request_URL <$> sent (Client_LastPush parseSmallInt c)
    = ["https://push.databox.com/lastpushes?limit=1"]
  ∧ ¬ targets_PushHost c (Push exactDecimal c visits_kpi).
Proof.
  cbv zeta.
  assert (Hpush : Request_URL <$> sent (Push exactDecimal (local_client 200 "{}") visits_kpi)
                  = ["https://push.databox.com/"]) by (vm_compute; reflexivity).
  split_and!; try (vm_compute; reflexivity).
  unfold targets_PushHost. intros Hall.
  assert (Hurls : Forall (λ url, String.prefix "http://localhost:8080" url = true)
                    (Request_URL <$> sent (Push exactDecimal (local_client 200 "{}") visits_kpi))).
  { apply Forall_fmap. exact Hall. }
  rewrite Hpush in Hurls. apply Forall_cons in Hurls as [Hprefix _].
  vm_compute in Hprefix. discriminate Hprefix.
Qed.

(** ** C3: a status outside 200-299 on the push path *)

(** C3, as stated, fails: the body [[]] is valid JSON, and on the status
    500 [postRequest] fails with the error of the decoder, which cannot
    store an array in a [ResponseStatus], not with [<type>: <message>]. *)
Lemma C3_counterexample_valid_JSON_array :
  ¬ api_error_for_valid_JSON (local_client 500 "[]") context_Background "{}".
Proof.
  intros Hclaim.
  destruct (Hclaim {| Response_StatusCode := 500; Response_Body := ("[]", None) |} "[]")
    as [rs Hrs]; [reflexivity | reflexivity | right; reflexivity | by eexists |].
  assert (Hrun : postRequest (local_client 500 "[]") context_Background "/" "{}"
            = Returns [databox_request (local_client 500 "[]") context_Background
                         "POST" "/" (Some "{}")]
                ("", Some (fmt_Errorf_w "can't unmarshal data[[]]: "
                             (UnmarshalTypeError "array" "databox.ResponseStatus" "" ""))))
    by (vm_compute; reflexivity).
  rewrite Hrun in Hrs. discriminate Hrs.
Qed.

(** The slip next to it: the body [null] is valid JSON too, [json.Unmarshal]
    sets the pointer [responseStatus] to nil without an error, and the next
    line reads [responseStatus.Type]. *)
Lemma postRequest_null_body_panics :
  postRequest (local_client 500 "null") context_Background "/" "{}"
  = Panics [databox_request (local_client 500 "null") context_Background
              "POST" "/" (Some "{}")] nil_dereference.
Proof. vm_compute. reflexivity. Qed.

Lemma Unmarshal_ResponseStatus_value data j :
  parseJSON data = Some j → j ≠ JNull →
  json_Unmarshal_ResponseStatus data (Some zeroResponseStatus)
  = match decodeResponseStatus "" "" j zeroResponseStatus with
    | Ok rs => (Some rs, None)
    | Err e => (Some zeroResponseStatus, Some e)
    end.
Proof.
  intros Hj Hnull. unfold json_Unmarshal_ResponseStatus. rewrite Hj.
  by destruct j.
Qed.

(** C3, amended.  A call of [InsertAll], or of [PushCtx] (the call with one
    record and [forcePush = false]), whose request is answered with a
    status outside 200-299 and a body that is read to its end and is not
    the JSON text [null] fails as follows.  If the body is not valid JSON,
    or is a JSON value (other than [null]) that does not decode into
    [{type, message}] (an array, a number, a member of the wrong type),
    the call fails with the decoder's error, wrapped.  If the body decodes
    into [{type, message}], [postRequest] fails with the error whose text
    is [<type>: <message>], and the call with that error wrapped, its text
    [sending request: <type>: <message>]; for the body
    [{"type": ty, "message": msg}] these are [ty] and [msg] verbatim.
    The statement says nothing of the body [null]. *)
Theorem C3_non2xx_error FormatFloat c ctx kpis forcePush call payload response data :
  call = InsertAll FormatFloat c ctx kpis forcePush
  ∨ (∃ kpi, kpis = [kpi] ∧ forcePush = false ∧ call = PushCtx FormatFloat c ctx kpi) →
  serializeKPIs FormatFloat kpis forcePush = (payload, None) →
  let request := databox_request c ctx "POST" "/" (Some payload) in
  let decode_failure e :=
    fmt_Errorf_w "sending request: "
      (fmt_Errorf_w ("can't unmarshal data[" +:+ data +:+ "]: ") e) in
  let api_error rs :=
    errors_New (ResponseStatus_Type rs +:+ ": " +:+ ResponseStatus_Message rs) in
  Client_HTTPClient c request = Ok response →
  Response_Body response = (data, None) →
  out_of_2xx (Response_StatusCode response) →
  (parseJSON data = None →
     call = Returns [request] (None, Some (decode_failure syntaxError)))
  ∧ (∀ j e, parseJSON data = Some j → j ≠ JNull →
       decodeResponseStatus "" "" j zeroResponseStatus = Err e →
       call = Returns [request] (None, Some (decode_failure e)))
  ∧ (∀ j rs, parseJSON data = Some j → j ≠ JNull →
       decodeResponseStatus "" "" j zeroResponseStatus = Ok rs →
       postRequest c ctx "/" payload = Returns [request] ("", Some (api_error rs))
       ∧ call = Returns [request]
                  (None, Some (fmt_Errorf_w "sending request: " (api_error rs)))
       ∧ Error (fmt_Errorf_w "sending request: " (api_error rs))
         = "sending request: " +:+ ResponseStatus_Type rs +:+ ": "
           +:+ ResponseStatus_Message rs)
  ∧ (∀ ty msg, parseJSON data = Some (JObj [("type", JStr ty); ("message", JStr msg)]) →
       call = Returns [request]
                (None, Some (fmt_Errorf_w "sending request: "
                               (errors_New (ty +:+ ": " +:+ msg))))).
Proof.
  intros Hcall Hpayload request decode_failure api_error Hresponse Hbody Hstatus.
  assert (Hcall' : call = InsertAll FormatFloat c ctx kpis forcePush).
  { destruct Hcall as [->|(kpi & -> & -> & ->)]; reflexivity. }
  clear Hcall. subst call.
  assert (Hpost : postRequest c ctx "/" payload
            = match json_Unmarshal_ResponseStatus data (Some zeroResponseStatus) with
              | (_, Some err) =>
                  Returns [request]
                    ("", Some (fmt_Errorf_w ("can't unmarshal data[" +:+ data +:+ "]: ") err))
              | (Some rs, None) => Returns [request] ("", Some (api_error rs))
              | (None, None) => Panics [request] nil_dereference
              end).
  { rewrite postRequest_root. fold request. rewrite Hresponse. unfold post_outcome.
    rewrite Hbody. by rewrite decide_True. }
  assert (Hvalue : ∀ j, parseJSON data = Some j → j ≠ JNull →
            (∀ e, decodeResponseStatus "" "" j zeroResponseStatus = Err e →
               InsertAll FormatFloat c ctx kpis forcePush
               = Returns [request] (None, Some (decode_failure e)))
            ∧ (∀ rs, decodeResponseStatus "" "" j zeroResponseStatus = Ok rs →
               postRequest c ctx "/" payload = Returns [request] ("", Some (api_error rs))
               ∧ InsertAll FormatFloat c ctx kpis forcePush
                 = Returns [request]
                     (None, Some (fmt_Errorf_w "sending request: " (api_error rs))))).
  { intros j Hj Hnull. unfold InsertAll. rewrite Hpayload, Hpost.
    rewrite (Unmarshal_ResponseStatus_value data j Hj Hnull).
    split; [intros e ->|intros rs ->]; done. }
  split_and!.
  - intros Hparse. unfold InsertAll. rewrite Hpayload, Hpost.
    unfold json_Unmarshal_ResponseStatus. by rewrite Hparse.
  - intros j e Hj Hnull He. by apply (Hvalue j).
  - intros j rs Hj Hnull Hrs. destruct (Hvalue j Hj Hnull) as [_ Hok].
    destruct (Hok rs Hrs) as [-> ->]. by split_and!.
  - intros ty msg Hj. destruct (Hvalue _ Hj) as [_ Hok]; [done|].
    by destruct (Hok (mkResponseStatus "" ty msg) eq_refl) as [_ ->].
Qed.

(** The theorem at a push of [visits_kpi] answered with the status 403 and
    the body [{"type":"forbidden","message":"bad token"}]. *)
Lemma C3_non2xx_error_witness :
  Push exactDecimal (local_client 403 forbidden_body) visits_kpi
  = Returns [databox_request (local_client 403 forbidden_body) context_Background "POST" "/"
               (Some (serializeKPIs exactDecimal [visits_kpi] false).1)]
      (None, Some (fmt_Errorf_w "sending request: " (errors_New "forbidden: bad token"))).
Proof.
  destruct (C3_non2xx_error exactDecimal (local_client 403 forbidden_body)
              context_Background [visits_kpi] false
              (Push exactDecimal (local_client 403 forbidden_body) visits_kpi)
              (serializeKPIs exactDecimal [visits_kpi] false).1
              {| Response_StatusCode := 403; Response_Body := (forbidden_body, None) |}
              forbidden_body) as (_ & _ & _ & Hobject).
  - right. exists visits_kpi. split_and!; reflexivity.
  - vm_compute. reflexivity.
  - reflexivity.
  - reflexivity.
  - right. reflexivity.
  - apply (Hobject "forbidden" "bad token"). vm_compute. reflexivity.
Defined.

(** ** C4: the read path never looks at the status *)

Section ReadPath.
Variable ParseFloat : string → option spec_float.

Lemma LastPushesCtx_closed c ctx n :
  LastPushesCtx ParseFloat c ctx n
  = let request := databox_request c ctx "GET" (lastpushes_path n) None in
    match Client_HTTPClient c request with
    | Err e =>
        Returns [request]
          ([], Some (fmt_Errorf_w "requesting /lastpushes from API: "
                       (fmt_Errorf_w "executing HTTP request: " e)))
    | Ok response =>
        match Response_Body response with
        | (_, Some e) =>
            Returns [request]
              ([], Some (fmt_Errorf_w "requesting /lastpushes from API: "
                           (fmt_Errorf_w "reading response body: " e)))
        | (data, None) => Returns [request] (decoded_pushes ParseFloat data)
        end
    end.
Proof.
  unfold LastPushesCtx. rewrite getRequest_lastpushes. cbv zeta.
  unfold get_outcome, decoded_pushes.
  destruct (Client_HTTPClient c _) as [[code [data [e|]]]|e]; cbn; try done.
  by destruct (json_Unmarshal_LastPushes ParseFloat data []) as [l [e|]].
Qed.
End ReadPath.

(** C4.  Whatever the answer to the GET of [/lastpushes]: the status code
    has no part in the result (answers that differ in their status codes
    only give the same run); a body read to its end goes to the decoder of
    the list as it is, on every status; the run never panics and sends the
    one request; and an error of [LastPushesCtx] is the wrapped error of
    the HTTP exchange, of the reading of the body, or of the list decoder
    -- the [{type, message}] decoding of the write path is not among
    them. *)
Theorem C4_LastPushes_never_inspects_status ParseFloat c ctx n :
  let request := databox_request c ctx "GET" (lastpushes_path n) None in
  LastPushes ParseFloat c n = LastPushesCtx ParseFloat c context_Background n
  ∧ (∀ f, LastPushesCtx ParseFloat (with_status f c) ctx n
          = LastPushesCtx ParseFloat c ctx n)
  ∧ (∀ response data,
       Client_HTTPClient c request = Ok response →
       Response_Body response = (data, None) →
       LastPushesCtx ParseFloat c ctx n
       = Returns [request] (decoded_pushes ParseFloat data))
  ∧ (∃ r, LastPushesCtx ParseFloat c ctx n = Returns [request] r)
  ∧ (∀ sent lastPushes err,
       LastPushesCtx ParseFloat c ctx n = Returns sent (lastPushes, Some err) →
       lastPushes = []
       ∧ ((∃ e, Client_HTTPClient c request = Err e
              ∧ err = fmt_Errorf_w "requesting /lastpushes from API: "
                        (fmt_Errorf_w "executing HTTP request: " e))
          ∨ (∃ response data e,
               Client_HTTPClient c request = Ok response
               ∧ Response_Body response = (data, Some e)
               ∧ err = fmt_Errorf_w "requesting /lastpushes from API: "
                         (fmt_Errorf_w "reading response body: " e))
          ∨ (∃ response data lastPushes' e,
               Client_HTTPClient c request = Ok response
               ∧ Response_Body response = (data, None)
               ∧ json_Unmarshal_LastPushes ParseFloat data [] = (lastPushes', Some e)
               ∧ err = fmt_Errorf_w ("can't unmarshal response[" +:+ data +:+ "]: ") e))).
Proof.
  intros request. split_and!.
  - reflexivity.
  - intros f. rewrite !LastPushesCtx_closed. cbn.
    change (databox_request (with_status f c) ctx "GET" (lastpushes_path n) None)
      with request. fold request.
    by destruct (Client_HTTPClient c request) as [[code [data [e|]]]|e].
  - intros response data Hresponse Hbody. rewrite LastPushesCtx_closed. cbv zeta.
    fold request. by rewrite Hresponse, Hbody.
  - rewrite LastPushesCtx_closed. cbv zeta. fold request.
    destruct (Client_HTTPClient c request) as [[code [data [e|]]]|e]; by eexists.
  - intros tr lastPushes err. rewrite LastPushesCtx_closed. cbv zeta. fold request.
    destruct (Client_HTTPClient c request) as [[code [data [e|]]]|e] eqn:Hresponse; cbn.
    + intros [= <- <- <-]. split; [done|]. right; left. by eexists _, data, e.
    + unfold decoded_pushes.
      destruct (json_Unmarshal_LastPushes ParseFloat data []) as [l [e|]] eqn:Hl; [|done].
      intros [= <- <- <-]. split; [done|]. do 2 right. by eexists _, data, l, e.
    + intros [= <- <- <-]. split; [done|]. left. by exists e.
Qed.

(** The theorem at a service that answers 401 and [{"type":"unauthorized"}]:
    the object goes to the decoder of the list, which has no use for it. *)
Lemma C4_LastPushes_never_inspects_status_witness :
  LastPushesCtx parseSmallInt (local_client 401 unauthorized_body) context_Background 3
  = Returns [databox_request (local_client 401 unauthorized_body) context_Background
               "GET" (lastpushes_path 3) None]
      ([], Some (fmt_Errorf_w ("can't unmarshal response[" +:+ unauthorized_body +:+ "]: ")
                   (UnmarshalTypeError "object" "[]databox.LastPush" "" ""))).
Proof.
  destruct (C4_LastPushes_never_inspects_status parseSmallInt
              (local_client 401 unauthorized_body) context_Background 3)
    as (_ & _ & Hdecoded & _).
  rewrite (Hdecoded {| Response_StatusCode := 401;
                       Response_Body := (unauthorized_body, None) |} unauthorized_body);
    [|reflexivity|reflexivity].
  f_equal.
Defined.

(** ** C5: [LastPush] *)

(** C5.  [LastPushCtx] runs [LastPushesCtx] with [n = 1] (and the method
    [LastPush] does so in the background context, where [LastPushes] runs):
    it sends what that call sends; when the call returns a list that is not
    empty, it returns the first element; when the call returns the empty
    list, as it does when the service answers [[]], it fails with the error
    [no last push], which no decoder raised; when the call fails, it
    returns that error as it is. *)
Theorem C5_LastPush_is_first_of_LastPushes ParseFloat c ctx :
  Client_LastPush ParseFloat c = LastPushCtx ParseFloat c context_Background
  ∧ LastPushes ParseFloat c 1 = LastPushesCtx ParseFloat c context_Background 1
  ∧ sent (LastPushCtx ParseFloat c ctx) = sent (LastPushesCtx ParseFloat c ctx 1)
  ∧ (∀ sent first rest,
       LastPushesCtx ParseFloat c ctx 1 = Returns sent (first :: rest, None) →
       LastPushCtx ParseFloat c ctx = Returns sent (first, None))
  ∧ (∀ sent,
       LastPushesCtx ParseFloat c ctx 1 = Returns sent ([], None) →
       LastPushCtx ParseFloat c ctx
       = Returns sent (zeroLastPush, Some (errors_New "no last push")))
  ∧ (∀ sent lastPushes err,
       LastPushesCtx ParseFloat c ctx 1 = Returns sent (lastPushes, Some err) →
       LastPushCtx ParseFloat c ctx = Returns sent (zeroLastPush, Some err))
  ∧ (∀ response,
       Client_HTTPClient c (databox_request c ctx "GET" (lastpushes_path 1) None)
       = Ok response →
       Response_Body response = ("[]", None) →
       LastPushCtx ParseFloat c ctx
       = Returns [databox_request c ctx "GET" (lastpushes_path 1) None]
           (zeroLastPush, Some (errors_New "no last push"))).
Proof.
  assert (Hbind : ∀ tr r,
            LastPushesCtx ParseFloat c ctx 1 = Returns tr r →
            LastPushCtx ParseFloat c ctx
            = Returns tr match r.2, r.1 with
                         | Some err, _ => (zeroLastPush, Some err)
                         | None, [] => (zeroLastPush, Some (errors_New "no last push"))
                         | None, lastPush :: _ => (lastPush, None)
                         end).
  { intros tr [l [err|]] Hrun; unfold LastPushCtx; rewrite Hrun; cbn;
      [|destruct l; cbn]; by rewrite app_nil_r. }
  split_and!; try reflexivity.
  - destruct (LastPushesCtx ParseFloat c ctx 1) as [tr r|tr reason] eqn:Hrun.
    + by rewrite (Hbind _ _ eq_refl).
    + unfold LastPushCtx. by rewrite Hrun.
  - intros tr first rest Hrun. by rewrite (Hbind _ _ Hrun).
  - intros tr Hrun. by rewrite (Hbind _ _ Hrun).
  - intros tr l err Hrun. by rewrite (Hbind _ _ Hrun).
  - intros response Hresponse Hbody. apply (Hbind _ ([], None)).
    rewrite LastPushesCtx_closed. cbv zeta. by rewrite Hresponse, Hbody.
Qed.

(** The theorem at an account without push history: the service answers
    200 and [[]]. *)
Lemma C5_LastPush_is_first_of_LastPushes_witness :
  Client_LastPush parseSmallInt (local_client 200 "[]")
  = Returns [databox_request (local_client 200 "[]") context_Background
               "GET" (lastpushes_path 1) None]
      (zeroLastPush, Some (errors_New "no last push")).
Proof.
  destruct (C5_LastPush_is_first_of_LastPushes parseSmallInt (local_client 200 "[]")
              context_Background) as (_ & _ & _ & _ & _ & _ & Hempty).
  apply (Hempty {| Response_StatusCode := 200; Response_Body := ("[]", None) |});
    reflexivity.
Defined.

(** ** C7: [Push] is [InsertAll] on one record *)

(** C7.  For every client, context and record, [PushCtx] is the run of
    [InsertAll] on the list of that one record with [forcePush = false]:
    the same request (the same envelope to the same path) and the same
    result, error or panic; [Push] is that run in the background context. *)
Theorem C7_Push_is_InsertAll_singleton FormatFloat c ctx kpi :
  PushCtx FormatFloat c ctx kpi = InsertAll FormatFloat c ctx [kpi] false
  ∧ Push FormatFloat c kpi = InsertAll FormatFloat c context_Background [kpi] false
  ∧ sent (PushCtx FormatFloat c ctx kpi) = sent (InsertAll FormatFloat c ctx [kpi] false).
Proof. by split_and!. Qed.

(** ** C8: [InsertAll] without records *)

Lemma serializeKPIs_empty FormatFloat :
  serializeKPIs FormatFloat [] false = (empty_envelope_bytes, None).
Proof. reflexivity. Qed.

(** The request is sent whatever the list of records is, once its
    serialisation succeeded. *)
Lemma InsertAll_sent FormatFloat c ctx kpis forcePush payload :
  serializeKPIs FormatFloat kpis forcePush = (payload, None) →
  sent (InsertAll FormatFloat c ctx kpis forcePush)
  = [databox_request c ctx "POST" "/" (Some payload)].
Proof.
  intros Hpayload. unfold InsertAll. rewrite Hpayload, postRequest_root.
  unfold post_outcome.
  destruct (Client_HTTPClient c _) as [[code [data [e|]]]|e]; cbn; try done.
  case_decide; cbn.
  - destruct (json_Unmarshal_ResponseStatus data _) as [[rs|] [e|]]; try done.
  - by destruct (json_Unmarshal_ResponseStatus data _) as [rs [e|]].
Qed.

(** C8.  With no record and [forcePush = false], [serializeKPIs] returns
    the bytes [{"data":[]}] -- the text of an object whose one member,
    [data], is an empty array -- without error, and [InsertAll] sends its
    one POST request to the service root with these bytes for body. *)
Theorem C8_InsertAll_empty FormatFloat c ctx :
  serializeKPIs FormatFloat [] false = (empty_envelope_bytes, None)
  ∧ parseJSON empty_envelope_bytes = Some (JObj [("data", JArr [])])
  ∧ sent (InsertAll FormatFloat c ctx [] false)
    = [databox_request c ctx "POST" "/" (Some empty_envelope_bytes)]
  ∧ Request_Method (databox_request c ctx "POST" "/" (Some empty_envelope_bytes)) = "POST"
  ∧ Request_URL (databox_request c ctx "POST" "/" (Some empty_envelope_bytes))
    = "https://push.databox.com/".
Proof.
  split_and!; try reflexivity.
  apply InsertAll_sent, serializeKPIs_empty.
Qed.

(* ================================================================== *)
(** * Further properties of the client *)

(** ** The write path in closed form *)

Lemma write_call_InsertAll FormatFloat c ctx kpis forcePush call :
  is_write_call FormatFloat c ctx kpis forcePush call →
  call = InsertAll FormatFloat c ctx kpis forcePush.
Proof. by intros [->|(kpi & -> & -> & ->)]. Qed.

Lemma InsertAll_closed FormatFloat c ctx kpis forcePush :
  InsertAll FormatFloat c ctx kpis forcePush
  = match serializeKPIs FormatFloat kpis forcePush with
    | (_, Some err) => Returns [] (None, Some (fmt_Errorf_w "preparing request: " err))
    | (payload, None) =>
        write_outcome (databox_request c ctx "POST" "/" (Some payload))
          (Client_HTTPClient c (databox_request c ctx "POST" "/" (Some payload)))
    end.
Proof.
  unfold InsertAll.
  destruct (serializeKPIs FormatFloat kpis forcePush) as [payload [err|]]; [done|].
  rewrite postRequest_root. unfold post_outcome, write_outcome, api_error.
  destruct (Client_HTTPClient c _) as [[code [data [e|]]]|e]; cbn; try done.
  case_decide; cbn.
  - by destruct (json_Unmarshal_ResponseStatus data _) as [[rs|] [e|]].
  - by destruct (json_Unmarshal_ResponseStatus data _) as [rs [e|]].
Qed.

Lemma Unmarshal_ResponseStatus_null data responseStatus :
  parseJSON data = Some JNull →
  json_Unmarshal_ResponseStatus data responseStatus = (None, None).
Proof. intros Hj. unfold json_Unmarshal_ResponseStatus. by rewrite Hj. Qed.

Lemma Unmarshal_ResponseStatus_invalid data responseStatus :
  parseJSON data = None →
  json_Unmarshal_ResponseStatus data responseStatus = (responseStatus, Some syntaxError).
Proof. intros Hj. unfold json_Unmarshal_ResponseStatus. by rewrite Hj. Qed.

(** The pointer is nil after a decoding without error only for [null]. *)
Lemma Unmarshal_ResponseStatus_nil data :
  json_Unmarshal_ResponseStatus data (Some zeroResponseStatus) = (None, None) →
  parseJSON data = Some JNull.
Proof.
  unfold json_Unmarshal_ResponseStatus.
  destruct (parseJSON data) as [j|]; [|done].
  destruct j; try done;
    by destruct (decodeResponseStatus "" "" _ _).
Qed.

(** ** X1-X3: what the write path makes of the body *)

(** X1.  A write call whose request is answered with a status in 200-299
    and a body that decodes into a [ResponseStatus] returns that status
    and no error; for the body [{"id": i, "type": t, "message": m}] it is
    the status with these three strings. *)
Theorem X1_write_success_returns_status FormatFloat c ctx kpis forcePush call
    payload response data :
  is_write_call FormatFloat c ctx kpis forcePush call →
  serializeKPIs FormatFloat kpis forcePush = (payload, None) →
  let request := databox_request c ctx "POST" "/" (Some payload) in
  Client_HTTPClient c request = Ok response →
  Response_Body response = (data, None) →
  ¬ out_of_2xx (Response_StatusCode response) →
  (∀ j rs, parseJSON data = Some j → j ≠ JNull →
     decodeResponseStatus "" "" j zeroResponseStatus = Ok rs →
     call = Returns [request] (Some rs, None))
  ∧ (∀ i t m,
       parseJSON data
       = Some (JObj [("id", JStr i); ("type", JStr t); ("message", JStr m)]) →
       call = Returns [request] (Some (mkResponseStatus i t m), None)).
Proof.
  intros Hcall Hpayload request Hresponse Hbody Hstatus.
  apply write_call_InsertAll in Hcall as ->.
  assert (Hvalue : ∀ j rs, parseJSON data = Some j → j ≠ JNull →
            decodeResponseStatus "" "" j zeroResponseStatus = Ok rs →
            InsertAll FormatFloat c ctx kpis forcePush = Returns [request] (Some rs, None)).
  { intros j rs Hj Hnull Hrs. rewrite InsertAll_closed, Hpayload. fold request.
    rewrite Hresponse. unfold write_outcome. rewrite Hbody, decide_False by done.
    by rewrite (Unmarshal_ResponseStatus_value data j Hj Hnull), Hrs. }
  split; [done|]. intros i t m Hj. by apply (Hvalue _ _ Hj).
Qed.

(** The theorem at a push of [visits_kpi] answered with 200 and
    [{"id":"1","type":"","message":"ok"}]. *)
Lemma X1_write_success_returns_status_witness :
  Push exactDecimal (local_client 200 accepted_body) visits_kpi
  = Returns [databox_request (local_client 200 accepted_body) context_Background "POST" "/"
               (Some (serializeKPIs exactDecimal [visits_kpi] false).1)]
      (Some (mkResponseStatus "1" "" "ok"), None).
Proof.
  destruct (X1_write_success_returns_status exactDecimal (local_client 200 accepted_body)
              context_Background [visits_kpi] false
              (Push exactDecimal (local_client 200 accepted_body) visits_kpi)
              (serializeKPIs exactDecimal [visits_kpi] false).1
              {| Response_StatusCode := 200; Response_Body := (accepted_body, None) |}
              accepted_body) as [_ Hobject].
  - right. exists visits_kpi. split_and!; reflexivity.
  - vm_compute. reflexivity.
  - reflexivity.
  - reflexivity.
  - unfold out_of_2xx. cbn. lia.
  - apply (Hobject "1" "" "ok"). vm_compute. reflexivity.
Defined.

(** X2.  A write call returns a nil status together with a nil error in
    one case only: the request was answered with a status in 200-299 and
    the body is the JSON text [null]. *)
Theorem X2_write_nil_status_nil_error FormatFloat c ctx kpis forcePush call
    payload response data :
  is_write_call FormatFloat c ctx kpis forcePush call →
  serializeKPIs FormatFloat kpis forcePush = (payload, None) →
  let request := databox_request c ctx "POST" "/" (Some payload) in
  Client_HTTPClient c request = Ok response →
  Response_Body response = (data, None) →
  call = Returns [request] (None, None)
  ↔ ¬ out_of_2xx (Response_StatusCode response) ∧ parseJSON data = Some JNull.
Proof.
  intros Hcall Hpayload request Hresponse Hbody.
  apply write_call_InsertAll in Hcall as ->.
  rewrite InsertAll_closed, Hpayload. fold request. rewrite Hresponse.
  unfold write_outcome. rewrite Hbody. split.
  - case_decide as Hstatus.
    + by destruct (json_Unmarshal_ResponseStatus data _) as [[rs|] [e|]].
    + destruct (json_Unmarshal_ResponseStatus data _) as [rs [e|]] eqn:Hrs; [done|].
      intros [= ->]. split; [done|]. by apply Unmarshal_ResponseStatus_nil.
  - intros [Hstatus Hnull]. rewrite decide_False by done.
    by rewrite (Unmarshal_ResponseStatus_null data _ Hnull).
Qed.

(** The theorem at a push answered with 200 and [null]. *)
Lemma X2_write_nil_status_nil_error_witness :
  Push exactDecimal (local_client 200 "null") visits_kpi
  = Returns [databox_request (local_client 200 "null") context_Background "POST" "/"
               (Some (serializeKPIs exactDecimal [visits_kpi] false).1)]
      (None, None).
Proof.
  apply (X2_write_nil_status_nil_error exactDecimal (local_client 200 "null")
           context_Background [visits_kpi] false
           (Push exactDecimal (local_client 200 "null") visits_kpi)
           (serializeKPIs exactDecimal [visits_kpi] false).1
           {| Response_StatusCode := 200; Response_Body := ("null", None) |} "null").
  - right. exists visits_kpi. split_and!; reflexivity.
  - vm_compute. reflexivity.
  - reflexivity.
  - reflexivity.
  - split; [unfold out_of_2xx; cbn; lia | reflexivity].
Defined.

(** X3.  For a client, an HTTP client in it and records that are given by
    valid pointers -- what the embedding takes for granted and what a
    caller owes, a nil [kpi] or a nil [HTTPClient] being dereferenced by
    the code before anything else -- the data of a write call makes it
    panic in one case only: the envelope was serialised and sent, the
    answer has a status outside 200-299, and its body, read to the end, is
    the JSON text [null]; the panic is the nil dereference of
    [responseStatus.Type] in [postRequest]. *)
Theorem X3_write_panics_iff_error_status_and_null FormatFloat c ctx kpis forcePush call :
  is_write_call FormatFloat c ctx kpis forcePush call →
  (∃ sent reason, call = Panics sent reason)
  ↔ (∃ payload response data,
       serializeKPIs FormatFloat kpis forcePush = (payload, None)
       ∧ Client_HTTPClient c (databox_request c ctx "POST" "/" (Some payload)) = Ok response
       ∧ Response_Body response = (data, None)
       ∧ out_of_2xx (Response_StatusCode response)
       ∧ parseJSON data = Some JNull
       ∧ call = Panics [databox_request c ctx "POST" "/" (Some payload)] nil_dereference).
Proof.
  intros Hcall. apply write_call_InsertAll in Hcall as ->.
  rewrite InsertAll_closed. split.
  - intros (tr & reason & Hrun).
    destruct (serializeKPIs FormatFloat kpis forcePush) as [payload [err|]]; [done|].
    exists payload. unfold write_outcome in *.
    destruct (Client_HTTPClient c _) as [response|e] eqn:Hresponse; [|done].
    destruct (Response_Body response) as [data [e|]] eqn:Hbody; [done|].
    exists response, data. case_decide as Hstatus.
    + destruct (json_Unmarshal_ResponseStatus data _) as [[rs|] [e|]] eqn:Hrs; try done.
      split_and!; try done. by apply Unmarshal_ResponseStatus_nil.
    + by destruct (json_Unmarshal_ResponseStatus data _) as [rs [e|]].
  - intros (payload & response & data & -> & Hresponse & Hbody & Hstatus & Hnull & _).
    rewrite Hresponse. unfold write_outcome. rewrite Hbody, decide_True by done.
    rewrite (Unmarshal_ResponseStatus_null data _ Hnull). by eexists _, _.
Qed.

(** The theorem at a push answered with 500 and [null]. *)
Lemma X3_write_panics_iff_error_status_and_null_witness :
  ∃ sent reason,
    Push exactDecimal (local_client 500 "null") visits_kpi = Panics sent reason.
Proof.
  apply (X3_write_panics_iff_error_status_and_null exactDecimal (local_client 500 "null")
           context_Background [visits_kpi] false).
  - right. exists visits_kpi. split_and!; reflexivity.
  - exists (serializeKPIs exactDecimal [visits_kpi] false).1,
      {| Response_StatusCode := 500; Response_Body := ("null", None) |}, "null".
    split_and!; try (vm_compute; reflexivity). right. cbn. lia.
Defined.

(** ** X4-X7: requests and errors of the write path *)

(** X4.  When a record cannot be encoded, a write call sends no request:
    it returns a nil status and the encoder's error, wrapped with the text
    [preparing request: ], and the error is the same for both values of
    [forcePush]. *)
Theorem X4_write_unencodable_sends_nothing FormatFloat c ctx kpis forcePush call :
  is_write_call FormatFloat c ctx kpis forcePush call →
  ¬ Forall encodable kpis →
  ∃ e, (serializeKPIs FormatFloat kpis true).2 = Some e
       ∧ (serializeKPIs FormatFloat kpis false).2 = Some e
       ∧ call = Returns [] (None, Some (fmt_Errorf_w "preparing request: " e))
       ∧ Error (fmt_Errorf_w "preparing request: " e) = "preparing request: " +:+ Error e.
Proof.
  intros Hcall Hkpis. apply write_call_InsertAll in Hcall as ->.
  assert (Hflag : ∀ b b', (serializeKPIs FormatFloat kpis b).2
                          = (serializeKPIs FormatFloat kpis b').2).
  { intros b b'. unfold serializeKPIs, json_Marshal, encodeKPIWrap.
    rewrite !wrapKPIs_closed. cbn.
    destruct (collect (encodeMap FormatFloat <$> (ToJSONData <$> kpis))); cbn;
      by destruct b, b'. }
  destruct (serializeKPIs FormatFloat kpis forcePush) as [payload [e|]] eqn:Hpayload.
  - exists e. rewrite (Hflag true forcePush), (Hflag false forcePush), Hpayload.
    split_and!; try done. by rewrite InsertAll_closed, Hpayload.
  - destruct Hkpis. apply (serializeKPIs_no_error_iff FormatFloat kpis forcePush).
    by rewrite Hpayload.
Qed.

(** The theorem at a push of the record whose [Value] is NaN. *)
Lemma X4_write_unencodable_sends_nothing_witness :
  ∃ e, (serializeKPIs exactDecimal [nan_kpi] true).2 = Some e
       ∧ (serializeKPIs exactDecimal [nan_kpi] false).2 = Some e
       ∧ Push exactDecimal (local_client 200 accepted_body) nan_kpi
         = Returns [] (None, Some (fmt_Errorf_w "preparing request: " e))
       ∧ Error (fmt_Errorf_w "preparing request: " e) = "preparing request: " +:+ Error e.
Proof.
  apply (X4_write_unencodable_sends_nothing exactDecimal (local_client 200 accepted_body)
           context_Background [nan_kpi] false).
  - right. exists nan_kpi. split_and!; reflexivity.
  - intros Hall. apply Forall_cons in Hall as [Hnan _].
    specialize (Hnan "$a" (VFloat32 S754_nan) eq_refl). discriminate Hnan.
Defined.

(** X5.  When every record can be encoded, a write call hands exactly one
    request to the HTTP client, whatever the answer and also when the run
    panics: a POST to [https://push.databox.com/] in the caller's context,
    its body the bytes of the envelope, with four headers -- the user
    agent, the accepted media type, the content type and the basic
    authentication of the push token with an empty password. *)
Theorem X5_write_sends_one_request FormatFloat c ctx kpis forcePush call :
  is_write_call FormatFloat c ctx kpis forcePush call →
  Forall encodable kpis →
  ∃ payload request,
    serializeKPIs FormatFloat kpis forcePush = (payload, None)
    ∧ sent call = [request]
    ∧ Request_Method request = "POST"
    ∧ Request_URL request = "https://push.databox.com/"
    ∧ Request_Body request = Some payload
    ∧ Request_ctx request = ctx
    ∧ Request_Header request !! "User-Agent" = Some ["databox-go/2.1.0"]
    ∧ Request_Header request !! "Accept" = Some ["application/vnd.databox.v2+json"]
    ∧ Request_Header request !! "Content-Type" = Some ["application/json"]
    ∧ Request_Header request !! "Authorization"
      = Some ["Basic " +:+ base64 (Client_PushToken c +:+ ":")]
    ∧ size (Request_Header request) = 4.
Proof.
  intros Hcall Hkpis. apply write_call_InsertAll in Hcall as ->.
  destruct (serializeKPIs_encodable FormatFloat kpis forcePush Hkpis)
    as (data & _ & _ & Hpayload).
  eexists _, (databox_request c ctx "POST" "/" _). split; [exact Hpayload|].
  split; [by apply InsertAll_sent|].
  split_and!; reflexivity.
Qed.

(** The theorem at a push of [visits_kpi] that is refused by the service. *)
Lemma X5_write_sends_one_request_witness :
  ∃ payload request,
    serializeKPIs exactDecimal [visits_kpi] false = (payload, None)
    ∧ sent (Push exactDecimal (local_client 403 forbidden_body) visits_kpi) = [request]
    ∧ Request_Method request = "POST"
    ∧ Request_URL request = "https://push.databox.com/"
    ∧ Request_Body request = Some payload
    ∧ Request_ctx request = context_Background
    ∧ Request_Header request !! "User-Agent" = Some ["databox-go/2.1.0"]
    ∧ Request_Header request !! "Accept" = Some ["application/vnd.databox.v2+json"]
    ∧ Request_Header request !! "Content-Type" = Some ["application/json"]
    ∧ Request_Header request !! "Authorization"
      = Some ["Basic " +:+ base64 ("token" +:+ ":")]
    ∧ size (Request_Header request) = 4.
Proof.
  apply (X5_write_sends_one_request exactDecimal (local_client 403 forbidden_body)
           context_Background [visits_kpi] false).
  - right. exists visits_kpi. split_and!; reflexivity.
  - constructor; [|constructor]. apply (bool_decide_unpack _). vm_compute. exact I.
Defined.

(** X6.  A write call never returns a status together with an error: when
    the error is not nil the status is nil, and the error is a wrapped one
    with one of three texts in front -- [preparing request: ] before the
    encoder's error, [sending request: ] before an error of [postRequest],
    or [can't unmarshal respoonse[<body>]: ] before the decoder's error on
    the body of an answer in 200-299. *)
Theorem X6_write_error_excludes_status FormatFloat c ctx kpis forcePush call
    sent status err :
  is_write_call FormatFloat c ctx kpis forcePush call →
  call = Returns sent (status, Some err) →
  status = None ∧ write_error_shape FormatFloat kpis forcePush sent err.
Proof.
  intros Hcall. apply write_call_InsertAll in Hcall as ->.
  rewrite InsertAll_closed. unfold write_error_shape.
  destruct (serializeKPIs FormatFloat kpis forcePush) as [payload [e|]].
  { intros [= <- <- <-]. split; [done|]. exists e. by left. }
  unfold write_outcome.
  destruct (Client_HTTPClient c _) as [[code [data [e|]]]|e]; cbn.
  - intros [= <- <- <-]. split; [done|]. eexists. right; by left.
  - case_decide.
    + destruct (json_Unmarshal_ResponseStatus data _) as [[rs|] [e|]];
        intros [= <- <- <-]; (split; [done|]); eexists; right; by left.
    + destruct (json_Unmarshal_ResponseStatus data _) as [rs [e|]] eqn:Hrs; [|done].
      intros [= <- <- <-]. split; [done|]. exists e. do 2 right. exists data.
      split; [|done]. intros Hnull.
      by rewrite (Unmarshal_ResponseStatus_null data _ Hnull) in Hrs.
  - intros [= <- <- <-]. split; [done|]. eexists. right; by left.
Qed.

(** The theorem at a push whose connection is refused. *)
Lemma X6_write_error_excludes_status_witness :
  write_error_shape exactDecimal [visits_kpi] false
    [databox_request (NewClient (failing refused) "token") context_Background
       "POST" "/" (Some (serializeKPIs exactDecimal [visits_kpi] false).1)]
    (fmt_Errorf_w "sending request: " (fmt_Errorf_w "executing HTTP request: " refused)).
Proof.
  apply (X6_write_error_excludes_status exactDecimal (NewClient (failing refused) "token")
           context_Background [visits_kpi] false
           (Push exactDecimal (NewClient (failing refused) "token") visits_kpi)
           _ None).
  - right. exists visits_kpi. split_and!; reflexivity.
  - vm_compute. reflexivity.
Defined.

(** X7.  The status code has a part in a write call only through its being
    inside or outside 200-299: answers that differ in status codes of the
    same class give the same run of [InsertAll] and of [PushCtx]. *)
Theorem X7_write_status_class_only FormatFloat c ctx kpis kpi forcePush f :
  (∀ code, out_of_2xx (f code) ↔ out_of_2xx code) →
  InsertAll FormatFloat (with_status f c) ctx kpis forcePush
  = InsertAll FormatFloat c ctx kpis forcePush
  ∧ PushCtx FormatFloat (with_status f c) ctx kpi = PushCtx FormatFloat c ctx kpi.
Proof.
  intros Hf.
  assert (Hall : ∀ kpis forcePush,
            InsertAll FormatFloat (with_status f c) ctx kpis forcePush
            = InsertAll FormatFloat c ctx kpis forcePush).
  { clear kpis forcePush. intros kpis forcePush. rewrite !InsertAll_closed.
    destruct (serializeKPIs FormatFloat kpis forcePush) as [payload [e|]]; [done|].
    change (databox_request (with_status f c) ctx "POST" "/" (Some payload))
      with (databox_request c ctx "POST" "/" (Some payload)).
    unfold write_outcome. cbn.
    destruct (Client_HTTPClient c _) as [[code [data [e|]]]|e]; cbn; try done.
    destruct (decide (out_of_2xx code)) as [Hcode|Hcode].
    - by rewrite decide_True by (by apply Hf).
    - by rewrite decide_False by (by rewrite Hf). }
  split; [apply Hall|apply (Hall [kpi] false)].
Qed.

(** The theorem at [flatten_status], which sends 403 to 500 and 201 to
    204. *)
Lemma X7_write_status_class_only_witness :
  InsertAll exactDecimal (with_status flatten_status (local_client 403 forbidden_body))
    context_Background [visits_kpi] true
  = InsertAll exactDecimal (local_client 403 forbidden_body)
      context_Background [visits_kpi] true.
Proof.
  apply (X7_write_status_class_only exactDecimal (local_client 403 forbidden_body)
           context_Background [visits_kpi] visits_kpi true flatten_status).
  intros code. unfold flatten_status, out_of_2xx. case_decide; lia.
Defined.

(** ** X8: the two classes of status in [postRequest] *)

(** X8.  On an answer whose body is read to its end, [postRequest] returns
    the bytes of the body as they are and no error when the status is in
    200-299, whatever the bytes (it does not decode them); on any other
    status it never returns without an error. *)
Theorem X8_postRequest_success_iff_2xx c ctx payload response data :
  let request := databox_request c ctx "POST" "/" (Some payload) in
  Client_HTTPClient c request = Ok response →
  Response_Body response = (data, None) →
  ((200 ≤ Response_StatusCode response ≤ 299)%Z →
     postRequest c ctx "/" payload = Returns [request] (data, None))
  ∧ (out_of_2xx (Response_StatusCode response) →
     ∀ sent bytes, postRequest c ctx "/" payload ≠ Returns sent (bytes, None)).
Proof.
  intros request Hresponse Hbody. rewrite postRequest_root. fold request.
  rewrite Hresponse. unfold post_outcome. rewrite Hbody. split.
  - intros Hstatus. rewrite decide_False; [done|]. unfold out_of_2xx. lia.
  - intros Hstatus tr bytes. rewrite decide_True by done.
    by destruct (json_Unmarshal_ResponseStatus data _) as [[rs|] [e|]].
Qed.

(** The theorem at the status 299 and a body that is not JSON. *)
Lemma X8_postRequest_success_iff_2xx_witness :
  postRequest (local_client 299 "<html>") context_Background "/" "{}"
  = Returns [databox_request (local_client 299 "<html>") context_Background
               "POST" "/" (Some "{}")] ("<html>", None).
Proof.
  destruct (X8_postRequest_success_iff_2xx (local_client 299 "<html>") context_Background
              "{}" {| Response_StatusCode := 299; Response_Body := ("<html>", None) |}
              "<html>") as [Hin _]; [reflexivity|reflexivity|].
  apply Hin. cbn. lia.
Defined.

(** ** X9-X11: the read path and the default client *)

Lemma LastPushesCtx_sent ParseFloat c ctx n :
  sent (LastPushesCtx ParseFloat c ctx n)
  = [databox_request c ctx "GET" (lastpushes_path n) None].
Proof.
  rewrite LastPushesCtx_closed. cbv zeta.
  by destruct (Client_HTTPClient c _) as [[code [data [e|]]]|e].
Qed.

Lemma LastPushCtx_closed ParseFloat c ctx :
  LastPushCtx ParseFloat c ctx
  = match LastPushesCtx ParseFloat c ctx 1 with
    | Returns sent r =>
        Returns sent match r.2, r.1 with
                     | Some err, _ => (zeroLastPush, Some err)
                     | None, [] => (zeroLastPush, Some (errors_New "no last push"))
                     | None, lastPush :: _ => (lastPush, None)
                     end
    | Panics sent reason => Panics sent reason
    end.
Proof.
  unfold LastPushCtx.
  destruct (LastPushesCtx ParseFloat c ctx 1) as [tr [l [err|]]|tr reason]; cbn;
    [|destruct l; cbn|done]; by rewrite app_nil_r.
Qed.

(** X9.  [LastPushesCtx] does not check [n]: for every integer, zero and
    the negative ones included, it sends one GET request, without body, to
    [/lastpushes?limit=] followed by [n] in decimal; and the request tells
    [n], since different limits give different URLs. *)
Theorem X9_limit_sent_as_given ParseFloat c ctx n :
  ∃ request,
    sent (LastPushesCtx ParseFloat c ctx n) = [request]
    ∧ Request_Method request = "GET"
    ∧ Request_URL request = "https://push.databox.com/lastpushes?limit=" +:+ pretty n
    ∧ Request_Body request = None
    ∧ Request_ctx request = ctx
    ∧ Request_Header request = databox_header c
    ∧ ∀ n', n ≠ n' → sent (LastPushesCtx ParseFloat c ctx n') ≠ [request].
Proof.
  exists (databox_request c ctx "GET" (lastpushes_path n) None).
  split; [apply LastPushesCtx_sent|]. split_and!; try reflexivity.
  intros n' Hne. rewrite LastPushesCtx_sent. intros [= Hurl].
  apply Hne. symmetry. apply (inj pretty). exact Hurl.
Qed.

(** The theorem at [n = -5] against [n' = 5]. *)
Lemma X9_limit_sent_as_given_witness :
  ∃ request,
    sent (LastPushesCtx parseSmallInt (local_client 200 "[]") context_Background (-5))
    = [request]
    ∧ Request_URL request = "https://push.databox.com/lastpushes?limit=-5"
    ∧ sent (LastPushesCtx parseSmallInt (local_client 200 "[]") context_Background 5)
      ≠ [request].
Proof.
  destruct (X9_limit_sent_as_given parseSmallInt (local_client 200 "[]")
              context_Background (-5))
    as (request & Hsent & _ & Hurl & _ & _ & _ & Hother).
  exists request. split_and!; [exact Hsent|exact Hurl|apply Hother; lia].
Defined.

(** X10.  When the body of the answer, on any status, is a JSON text that
    holds an empty array or [null] (white space around it allowed),
    [LastPushesCtx] returns an empty list without error, and [LastPushCtx]
    fails with [no last push]. *)
Theorem X10_no_history_bodies ParseFloat c ctx response data :
  Client_HTTPClient c (databox_request c ctx "GET" (lastpushes_path 1) None) = Ok response →
  Response_Body response = (data, None) →
  parseJSON data = Some (JArr []) ∨ parseJSON data = Some JNull →
  LastPushesCtx ParseFloat c ctx 1
  = Returns [databox_request c ctx "GET" (lastpushes_path 1) None] ([], None)
  ∧ LastPushCtx ParseFloat c ctx
    = Returns [databox_request c ctx "GET" (lastpushes_path 1) None]
        (zeroLastPush, Some (errors_New "no last push")).
Proof.
  intros Hresponse Hbody Hdata.
  assert (Hlist : LastPushesCtx ParseFloat c ctx 1
            = Returns [databox_request c ctx "GET" (lastpushes_path 1) None] ([], None)).
  { rewrite LastPushesCtx_closed. cbv zeta. rewrite Hresponse, Hbody.
    unfold decoded_pushes, json_Unmarshal_LastPushes.
    by destruct Hdata as [-> | ->]. }
  split; [done|]. by rewrite LastPushCtx_closed, Hlist.
Qed.

(** The theorem at a service that answers 404 and [ null ]. *)
Lemma X10_no_history_bodies_witness :
  LastPushesCtx parseSmallInt (local_client 404 " null ") context_Background 1
  = Returns [databox_request (local_client 404 " null ") context_Background
               "GET" (lastpushes_path 1) None] ([], None)
  ∧ LastPushCtx parseSmallInt (local_client 404 " null ") context_Background
    = Returns [databox_request (local_client 404 " null ") context_Background
                 "GET" (lastpushes_path 1) None]
        (zeroLastPush, Some (errors_New "no last push")).
Proof.
  apply (X10_no_history_bodies parseSmallInt (local_client 404 " null ") context_Background
           {| Response_StatusCode := 404; Response_Body := (" null ", None) |} " null ").
  - reflexivity.
  - reflexivity.
  - right. vm_compute. reflexivity.
Defined.

Lemma InsertAll_sent_cases FormatFloat c ctx kpis forcePush :
  sent (InsertAll FormatFloat c ctx kpis forcePush) = []
  ∨ ∃ payload, sent (InsertAll FormatFloat c ctx kpis forcePush)
               = [databox_request c ctx "POST" "/" (Some payload)].
Proof.
  destruct (serializeKPIs FormatFloat kpis forcePush) as [payload [e|]] eqn:Hpayload.
  - left. by rewrite InsertAll_closed, Hpayload.
  - right. exists payload. by apply InsertAll_sent.
Qed.

(** X11.  For a client as [NewClient] returns it, every request of the
    four operations goes to the host in [PushHost]: the field holds
    [apiURL], the host the requests are built from. *)
Theorem X11_NewClient_targets_PushHost FormatFloat ParseFloat transport pushToken
    ctx kpi kpis forcePush n :
  let c := NewClient transport pushToken in
  Client_PushHost c = "https://push.databox.com"
  ∧ Client_PushToken c = pushToken
  ∧ targets_PushHost c (PushCtx FormatFloat c ctx kpi)
  ∧ targets_PushHost c (InsertAll FormatFloat c ctx kpis forcePush)
  ∧ targets_PushHost c (LastPushesCtx ParseFloat c ctx n)
  ∧ targets_PushHost c (LastPushCtx ParseFloat c ctx).
Proof.
  intros c.
  assert (Hwrite : ∀ kpis forcePush,
            targets_PushHost c (InsertAll FormatFloat c ctx kpis forcePush)).
  { intros kpis' forcePush'. unfold targets_PushHost.
    destruct (InsertAll_sent_cases FormatFloat c ctx kpis' forcePush')
      as [->|[payload ->]]; [constructor|].
    by constructor. }
  assert (Hread : ∀ n, targets_PushHost c (LastPushesCtx ParseFloat c ctx n)).
  { intros n'. unfold targets_PushHost. rewrite LastPushesCtx_sent. by constructor. }
  split_and!; try done.
  - apply (Hwrite [kpi] false).
  - unfold targets_PushHost. rewrite LastPushCtx_closed.
    specialize (Hread 1%Z). unfold targets_PushHost in Hread.
    by destruct (LastPushesCtx ParseFloat c ctx 1) as [tr [[|l ls] [err|]]|tr reason].
Qed.

(** ** X12-X13: the keys of the output of [ToJSONData] *)

Lemma dom_guarded_insert (P : Prop) `{!Decision P} (k : string) (v : value)
    (m : gmap string value) :
  dom (if decide P then <[k := v]> m else m)
  = (if decide P then {[ k ]} else ∅) ∪ dom m.
Proof.
  destruct (decide P); [by rewrite dom_insert_L|]. by rewrite (left_id_L ∅ (∪)).
Qed.

Lemma size_union_le (X Y : gset string) : (size (X ∪ Y) ≤ size X + size Y)%nat.
Proof.
  rewrite size_union_alt. apply Nat.add_le_mono_l, subseteq_size.
  apply subseteq_difference_l. done.
Qed.

Lemma size_dollar_keys (X : gset string) :
  size (set_map (D:=gset string) dollar X) = size X.
Proof.
  unfold set_map. rewrite size_list_to_set.
  - by rewrite length_fmap.
  - apply (NoDup_fmap_2 _), NoDup_elements.
Qed.

(** X12.  Whatever the order in which the loops visit the maps, the keys of
    the output of [ToJSONData] are exactly the names of the attributes, the
    names of the metrics each behind a [$], [$Key] when [Key] is not empty,
    [date] when [Date] is not empty and [unit] when [Unit] is not empty: no
    name is dropped and no other key is written; so the output has at most
    as many entries as there are attributes and metrics, plus three. *)
Theorem X12_ToJSONData_keys attributes metrics kpi :
  range_order (KPI_Attributes kpi) attributes →
  range_order (KPI_Metrics kpi) metrics →
  dom (ToJSONData_ranged attributes metrics kpi) = output_keys kpi
  ∧ (∀ k, k ∈ dom (KPI_Attributes kpi) → k ∈ dom (ToJSONData_ranged attributes metrics kpi))
  ∧ (∀ m, m ∈ dom (KPI_Metrics kpi) →
       dollar m ∈ dom (ToJSONData_ranged attributes metrics kpi))
  ∧ (size (ToJSONData_ranged attributes metrics kpi)
     ≤ size (KPI_Attributes kpi) + size (KPI_Metrics kpi) + 3)%nat.
Proof.
  intros Ha Hm.
  assert (Hdom : dom (ToJSONData_ranged attributes metrics kpi) = output_keys kpi).
  { rewrite (ToJSONData_ranged_closed _ _ _ Ha Hm). unfold store_fields, output_keys.
    rewrite !dom_guarded_insert, dom_union_L, dom_kmap_L, dom_fmap_L by apply _.
    by rewrite !(assoc_L (∪)). }
  split_and!; [done| | |].
  - intros k Hk. rewrite Hdom. unfold output_keys. by apply elem_of_union_r.
  - intros m Hk. rewrite Hdom. unfold output_keys.
    apply elem_of_union_l, elem_of_union_r, elem_of_map. by exists m.
  - rewrite <-size_dom, Hdom. unfold output_keys.
    assert (Hone : ∀ (P : Prop) (HP : Decision P) (k : string),
              (size (if decide P then ({[ k ]} : gset string) else ∅) ≤ 1)%nat).
    { intros P ? k. destruct (decide P); [by rewrite size_singleton|].
      rewrite size_empty. lia. }
    set (U := if decide (KPI_Unit kpi ≠ "") then ({[ "unit" ]} : gset string) else ∅).
    set (D := if decide (KPI_Date kpi ≠ "") then ({[ "date" ]} : gset string) else ∅).
    set (K := if decide (KPI_Key kpi ≠ "")
              then ({[ dollar (KPI_Key kpi) ]} : gset string) else ∅).
    set (M := set_map (D:=gset string) dollar (dom (KPI_Metrics kpi))).
    set (A := dom (KPI_Attributes kpi) : gset string).
    pose proof (Hone (KPI_Unit kpi ≠ "") _ "unit") as HU.
    pose proof (Hone (KPI_Date kpi ≠ "") _ "date") as HD.
    pose proof (Hone (KPI_Key kpi ≠ "") _ (dollar (KPI_Key kpi))) as HK.
    pose proof (size_dollar_keys (dom (KPI_Metrics kpi))) as HM.
    rewrite size_dom in HM.
    assert (HA : size A = size (KPI_Attributes kpi)) by apply size_dom.
    fold U in HU. fold D in HD. fold K in HK. fold M in HM.
    pose proof (size_union_le (U ∪ D ∪ K ∪ M) A).
    pose proof (size_union_le (U ∪ D ∪ K) M).
    pose proof (size_union_le (U ∪ D) K).
    pose proof (size_union_le U D).
    lia.
Qed.

(** The theorem at [keyless_kpi], its maps visited in the order of
    [map_to_list]: four keys, the attribute [$a] and the metric [a]
    sharing one. *)
Lemma X12_ToJSONData_keys_witness :
  dom (ToJSONData keyless_kpi) = output_keys keyless_kpi
  ∧ size (ToJSONData keyless_kpi) = 4%nat.
Proof.
  split; [|vm_compute; reflexivity].
  apply (X12_ToJSONData_keys (map_to_list (KPI_Attributes keyless_kpi))
           (map_to_list (KPI_Metrics keyless_kpi)) keyless_kpi);
    unfold range_order; reflexivity.
Defined.

(** X13.  Whatever the order in which the loops visit the maps, the entries
    [date] and [unit] of the output of [ToJSONData] are the fields [Date]
    and [Unit] when these are not empty, whatever the attributes, the
    metrics and [Key] are; when a field is empty, the entry is the
    attribute of that name, if there is one. *)
Theorem X13_date_unit_fields_win attributes metrics kpi :
  range_order (KPI_Attributes kpi) attributes →
  range_order (KPI_Metrics kpi) metrics →
  let out := ToJSONData_ranged attributes metrics kpi in
  (KPI_Date kpi ≠ "" → out !! "date" = Some (VString (KPI_Date kpi)))
  ∧ (KPI_Date kpi = "" → out !! "date" = KPI_Attributes kpi !! "date")
  ∧ (KPI_Unit kpi ≠ "" → out !! "unit" = Some (VString (KPI_Unit kpi)))
  ∧ (KPI_Unit kpi = "" → out !! "unit" = KPI_Attributes kpi !! "unit").
Proof.
  intros Ha Hm out. unfold out. rewrite (ToJSONData_any_order _ _ _ Ha Hm).
  rewrite !ToJSONData_lookup. unfold output_at. cbn.
  split_and!; intros Hfield.
  - rewrite decide_False by (by intros [_ ?]). by rewrite decide_True.
  - rewrite decide_False by (by intros [_ ?]).
    rewrite decide_False by (by intros [? _]).
    by rewrite decide_False by (by intros [_ ?]).
  - by rewrite decide_True.
  - rewrite decide_False by (by intros [? _]).
    rewrite decide_False by (by intros [_ ?]).
    by rewrite decide_False by (by intros [_ ?]).
Qed.

(** The theorem at [dated_kpi]: its [Date] replaces the attribute [date],
    its attribute [unit] stays, and neither [Key = "date"] nor the metric
    [unit] touches them. *)
Lemma X13_date_unit_fields_win_witness :
  ToJSONData dated_kpi !! "date" = Some (VString "2006-01-02")
  ∧ ToJSONData dated_kpi !! "unit" = Some (VString "EUR").
Proof.
  destruct (X13_date_unit_fields_win (map_to_list (KPI_Attributes dated_kpi))
              (map_to_list (KPI_Metrics dated_kpi)) dated_kpi)
    as (Hdate & _ & _ & Hunit); [unfold range_order; reflexivity..|].
  split; [apply Hdate; discriminate | etrans; [apply Hunit; reflexivity | reflexivity]].
Defined.

(** ** X14: batches *)

Lemma collect_app {A} (rs1 rs2 : list (result A)) l1 l2 :
  collect rs1 = Ok l1 → collect rs2 = Ok l2 →
  collect (rs1 ++ rs2)%list = Ok (l1 ++ l2)%list.
Proof.
  revert l1. induction rs1 as [|[a|e] rs1 IH]; intros l1; cbn.
  - by intros [= <-].
  - destruct (collect rs1) as [l|e] eqn:Hrs1; [|done]. cbn. intros [= <-] H2.
    by rewrite (IH l eq_refl H2).
  - done.
Qed.

(** X14.  The envelope of a batch is the batches' envelopes put together:
    when all the records of two lists can be encoded, the [data] array for
    the two lists in a row is the array of the first list followed by the
    array of the second, each with one element per record, in the order of
    the records. *)
Theorem X14_serializeKPIs_concat FormatFloat kpis1 kpis2 forcePush :
  Forall encodable kpis1 →
  Forall encodable kpis2 →
  ∃ data1 data2,
    length data1 = length kpis1
    ∧ length data2 = length kpis2
    ∧ serializeKPIs FormatFloat kpis1 forcePush = (render (envelope forcePush data1), None)
    ∧ serializeKPIs FormatFloat kpis2 forcePush = (render (envelope forcePush data2), None)
    ∧ serializeKPIs FormatFloat (kpis1 ++ kpis2)%list forcePush
      = (render (envelope forcePush (data1 ++ data2)%list), None).
Proof.
  intros H1 H2.
  destruct (serializeKPIs_encodable FormatFloat kpis1 forcePush H1)
    as (data1 & Hlen1 & Hdata1 & Hbytes1).
  destruct (serializeKPIs_encodable FormatFloat kpis2 forcePush H2)
    as (data2 & Hlen2 & Hdata2 & Hbytes2).
  exists data1, data2. split_and!; try done.
  unfold serializeKPIs, json_Marshal, encodeKPIWrap. rewrite wrapKPIs_closed. cbn.
  rewrite !fmap_app, (collect_app _ _ _ _ Hdata1 Hdata2). by destruct forcePush.
Qed.

(** The theorem at the batches [[visits_kpi]] and [[keyless_kpi; sales_kpi]]. *)
Lemma X14_serializeKPIs_concat_witness :
  ∃ data1 data2,
    length data1 = 1%nat
    ∧ length data2 = 2%nat
    ∧ serializeKPIs exactDecimal [visits_kpi] true = (render (envelope true data1), None)
    ∧ serializeKPIs exactDecimal [keyless_kpi; sales_kpi] true
      = (render (envelope true data2), None)
    ∧ serializeKPIs exactDecimal ([visits_kpi] ++ [keyless_kpi; sales_kpi])%list true
      = (render (envelope true (data1 ++ data2)%list), None).
Proof.
  apply (X14_serializeKPIs_concat exactDecimal [visits_kpi] [keyless_kpi; sales_kpi] true).
  - constructor; [|constructor]. apply (bool_decide_unpack _). vm_compute. exact I.
  - constructor; [|constructor; [|constructor]];
      apply (bool_decide_unpack _); vm_compute; exact I.
Defined.

(** ** X15-X16: errors of the HTTP exchange *)

Lemma errors_Is_refl e : errors_Is e e.
Proof. destruct e; by left. Qed.

Lemma errors_Is_wrapped prefix e target :
  errors_Is e target → errors_Is (fmt_Errorf_w prefix e) target.
Proof. intros He. by right. Qed.

(** X15.  When the HTTP client fails, a write call whose envelope was
    serialised returns a nil status and an error that wraps the client's
    error twice: [errors.Is] finds the client's error in it, and its text
    is [sending request: executing HTTP request: ] followed by the text of
    that error.  The same holds, with [reading response body: ], for an
    error that breaks off the reading of the body, whatever the status and
    the bytes read so far. *)
Theorem X15_write_keeps_transport_error FormatFloat c ctx kpis forcePush call payload e :
  is_write_call FormatFloat c ctx kpis forcePush call →
  serializeKPIs FormatFloat kpis forcePush = (payload, None) →
  let request := databox_request c ctx "POST" "/" (Some payload) in
  (Client_HTTPClient c request = Err e →
     ∃ err, call = Returns [request] (None, Some err)
            ∧ errors_Is err e
            ∧ Error err = "sending request: executing HTTP request: " +:+ Error e)
  ∧ (∀ response read,
       Client_HTTPClient c request = Ok response →
       Response_Body response = (read, Some e) →
       ∃ err, call = Returns [request] (None, Some err)
              ∧ errors_Is err e
              ∧ Error err = "sending request: reading response body: " +:+ Error e).
Proof.
  intros Hcall Hpayload request. apply write_call_InsertAll in Hcall as ->.
  rewrite InsertAll_closed, Hpayload. fold request. split.
  - intros ->. eexists. split; [reflexivity|]. split; [|reflexivity].
    apply errors_Is_wrapped, errors_Is_wrapped, errors_Is_refl.
  - intros response read -> Hbody. unfold write_outcome. rewrite Hbody.
    eexists. split; [reflexivity|]. split; [|reflexivity].
    apply errors_Is_wrapped, errors_Is_wrapped, errors_Is_refl.
Qed.

(** The theorem at a push whose connection is refused. *)
Lemma X15_write_keeps_transport_error_witness :
  ∃ err,
    Push exactDecimal (NewClient (failing refused) "token") visits_kpi
    = Returns [databox_request (NewClient (failing refused) "token") context_Background
                 "POST" "/" (Some (serializeKPIs exactDecimal [visits_kpi] false).1)]
        (None, Some err)
    ∧ errors_Is err refused
    ∧ Error err = "sending request: executing HTTP request: " +:+ Error refused.
Proof.
  destruct (X15_write_keeps_transport_error exactDecimal (NewClient (failing refused) "token")
              context_Background [visits_kpi] false
              (Push exactDecimal (NewClient (failing refused) "token") visits_kpi)
              (serializeKPIs exactDecimal [visits_kpi] false).1 refused) as [Hfail _].
  - right. exists visits_kpi. split_and!; reflexivity.
  - vm_compute. reflexivity.
  - apply Hfail. reflexivity.
Defined.

(** X16.  When the HTTP client fails, or the reading of the body breaks
    off, [LastPushesCtx] returns an empty list and an error that wraps the
    error twice, which [errors.Is] finds in it; its text is
    [requesting /lastpushes from API: ] followed by
    [executing HTTP request: ] or [reading response body: ] and the text of
    the error.  [LastPushCtx] returns the zero [LastPush] and the same
    error. *)
Theorem X16_read_keeps_transport_error ParseFloat c ctx n e :
  let request n := databox_request c ctx "GET" (lastpushes_path n) None in
  let through := "requesting /lastpushes from API: " in
  (Client_HTTPClient c (request n) = Err e →
     ∃ err, LastPushesCtx ParseFloat c ctx n = Returns [request n] ([], Some err)
            ∧ errors_Is err e
            ∧ Error err = through +:+ "executing HTTP request: " +:+ Error e)
  ∧ (∀ response read,
       Client_HTTPClient c (request n) = Ok response →
       Response_Body response = (read, Some e) →
       ∃ err, LastPushesCtx ParseFloat c ctx n = Returns [request n] ([], Some err)
              ∧ errors_Is err e
              ∧ Error err = through +:+ "reading response body: " +:+ Error e)
  ∧ (∀ err sent lastPushes,
       LastPushesCtx ParseFloat c ctx 1 = Returns sent (lastPushes, Some err) →
       LastPushCtx ParseFloat c ctx = Returns sent (zeroLastPush, Some err)).
Proof.
  intros request through. split_and!.
  - intros Hfail. rewrite LastPushesCtx_closed. cbv zeta. fold (request n).
    rewrite Hfail. eexists. split; [reflexivity|]. split; [|reflexivity].
    apply errors_Is_wrapped, errors_Is_wrapped, errors_Is_refl.
  - intros response read Hresponse Hbody. rewrite LastPushesCtx_closed. cbv zeta.
    fold (request n). rewrite Hresponse, Hbody.
    eexists. split; [reflexivity|]. split; [|reflexivity].
    apply errors_Is_wrapped, errors_Is_wrapped, errors_Is_refl.
  - intros err tr l Hrun. by rewrite LastPushCtx_closed, Hrun.
Qed.

(** The theorem at a read whose context is cancelled, and at one whose
    body breaks off. *)
Lemma X16_read_keeps_transport_error_witness :
  (∃ err,
     LastPushesCtx parseSmallInt (NewClient (failing cancelled) "token")
       (context_Derived 1) 1
     = Returns [databox_request (NewClient (failing cancelled) "token")
                  (context_Derived 1) "GET" (lastpushes_path 1) None] ([], Some err)
     ∧ errors_Is err cancelled)
  ∧ (∃ err,
       LastPushesCtx parseSmallInt
         (NewClient (breaking_off 200 "[{" (readError "unexpected EOF")) "token")
         context_Background 1
       = Returns [databox_request
                    (NewClient (breaking_off 200 "[{" (readError "unexpected EOF")) "token")
                    context_Background "GET" (lastpushes_path 1) None] ([], Some err)
       ∧ errors_Is err (readError "unexpected EOF")).
Proof.
  split.
  - destruct (X16_read_keeps_transport_error parseSmallInt
                (NewClient (failing cancelled) "token") (context_Derived 1) 1 cancelled)
      as (Hfail & _ & _).
    destruct Hfail as (err & Hrun & His & _); [reflexivity|]. by exists err.
  - destruct (X16_read_keeps_transport_error parseSmallInt
                (NewClient (breaking_off 200 "[{" (readError "unexpected EOF")) "token")
                context_Background 1 (readError "unexpected EOF"))
      as (_ & Hbreak & _).
    destruct (Hbreak {| Response_StatusCode := 200;
                        Response_Body := ("[{", Some (readError "unexpected EOF")) |} "[{")
      as (err & Hrun & His & _); [reflexivity|reflexivity|]. by exists err.
Defined.

(** ** X17-X18: bodies the decoders refuse or accept *)

(** X17.  A write call whose request is answered with a status in 200-299
    still fails when the body does not decode: for a body that is not
    valid JSON -- the empty body of a 204 is one -- and for a JSON value
    other than [null] that is not a [{id, type, message}], it returns a nil
    status and the decoder's error behind the text
    [can't unmarshal respoonse[<body>]: ]. *)
Theorem X17_write_success_status_bad_body FormatFloat c ctx kpis forcePush call
    payload response data :
  is_write_call FormatFloat c ctx kpis forcePush call →
  serializeKPIs FormatFloat kpis forcePush = (payload, None) →
  let request := databox_request c ctx "POST" "/" (Some payload) in
  let failure e :=
    Returns [request]
      (None, Some (fmt_Errorf_w ("can't unmarshal respoonse[" +:+ data +:+ "]: ") e)) in
  Client_HTTPClient c request = Ok response →
  Response_Body response = (data, None) →
  ¬ out_of_2xx (Response_StatusCode response) →
  (parseJSON data = None → call = failure syntaxError)
  ∧ (∀ j e, parseJSON data = Some j → j ≠ JNull →
       decodeResponseStatus "" "" j zeroResponseStatus = Err e → call = failure e)
  ∧ (data = "" → call = failure syntaxError).
Proof.
  intros Hcall Hpayload request failure Hresponse Hbody Hstatus.
  apply write_call_InsertAll in Hcall as ->.
  rewrite InsertAll_closed, Hpayload. fold request. rewrite Hresponse.
  unfold write_outcome. rewrite Hbody, decide_False by done.
  assert (Hinvalid : parseJSON data = None →
            match json_Unmarshal_ResponseStatus data (Some zeroResponseStatus) with
            | (_, Some e) =>
                Returns [request]
                  (None, Some (fmt_Errorf_w
                                 ("can't unmarshal respoonse[" +:+ data +:+ "]: ") e))
            | (responseStatus, None) => Returns [request] (responseStatus, None)
            end = failure syntaxError).
  { intros Hj. by rewrite (Unmarshal_ResponseStatus_invalid data _ Hj). }
  split_and!; [done| |].
  - intros j e Hj Hnull He.
    by rewrite (Unmarshal_ResponseStatus_value data j Hj Hnull), He.
  - intros ->. by apply Hinvalid.
Qed.

(** The theorem at a push answered with 204 and no body. *)
Lemma X17_write_success_status_bad_body_witness :
  Push exactDecimal (local_client 204 "") visits_kpi
  = Returns [databox_request (local_client 204 "") context_Background "POST" "/"
               (Some (serializeKPIs exactDecimal [visits_kpi] false).1)]
      (None, Some (fmt_Errorf_w "can't unmarshal respoonse[]: " syntaxError)).
Proof.
  destruct (X17_write_success_status_bad_body exactDecimal (local_client 204 "")
              context_Background [visits_kpi] false
              (Push exactDecimal (local_client 204 "") visits_kpi)
              (serializeKPIs exactDecimal [visits_kpi] false).1
              {| Response_StatusCode := 204; Response_Body := ("", None) |} "")
    as (_ & _ & Hempty).
  - right. exists visits_kpi. split_and!; reflexivity.
  - vm_compute. reflexivity.
  - reflexivity.
  - reflexivity.
  - unfold out_of_2xx. cbn. lia.
  - apply Hempty. reflexivity.
Defined.

Lemma collect_length {A} (rs : list (result A)) l :
  collect rs = Ok l → length l = length rs.
Proof.
  revert l. induction rs as [|[a|e] rs IH]; intros l; cbn; [by intros [= <-]| |done].
  destruct (collect rs) as [l'|e] eqn:Hrs; [|done]. cbn. intros [= <-].
  cbn. by rewrite (IH l' eq_refl).
Qed.

(** X18.  [LastPushesCtx] does not hold the service to [n]: when the body
    is a JSON array, it returns one entry for each element of the array, in
    the order of the array and however many there are, provided each
    element decodes into a [LastPush]; if one does not, it returns the empty
    list and the decoder's error. *)
Theorem X18_LastPushes_one_entry_per_element ParseFloat c ctx n response data elems :
  let request := databox_request c ctx "GET" (lastpushes_path n) None in
  Client_HTTPClient c request = Ok response →
  Response_Body response = (data, None) →
  parseJSON data = Some (JArr elems) →
  (∀ lastPushes,
     collect ((λ j, decodeLastPush ParseFloat j zeroLastPush) <$> elems) = Ok lastPushes →
     LastPushesCtx ParseFloat c ctx n = Returns [request] (lastPushes, None)
     ∧ length lastPushes = length elems)
  ∧ (∀ e,
       collect ((λ j, decodeLastPush ParseFloat j zeroLastPush) <$> elems) = Err e →
       LastPushesCtx ParseFloat c ctx n
       = Returns [request]
           ([], Some (fmt_Errorf_w ("can't unmarshal response[" +:+ data +:+ "]: ") e))).
Proof.
  intros request Hresponse Hbody Hj.
  rewrite LastPushesCtx_closed. cbv zeta. fold request. rewrite Hresponse, Hbody.
  unfold decoded_pushes, json_Unmarshal_LastPushes. rewrite Hj. cbn. split.
  - intros l Hl. rewrite Hl. cbn. split; [done|].
    apply collect_length in Hl. by rewrite Hl, length_fmap.
  - intros e He. by rewrite He.
Qed.

(** The theorem at a service that answers two entries to [limit=1]. *)
Lemma X18_LastPushes_one_entry_per_element_witness :
  LastPushesCtx parseSmallInt (local_client 200 two_entries_body) context_Background 1
  = Returns [databox_request (local_client 200 two_entries_body) context_Background
               "GET" (lastpushes_path 1) None]
      ([zeroLastPush; zeroLastPush], None)
  ∧ length [zeroLastPush; zeroLastPush] = length [JObj []; JObj []].
Proof.
  destruct (X18_LastPushes_one_entry_per_element parseSmallInt
              (local_client 200 two_entries_body) context_Background 1
              {| Response_StatusCode := 200; Response_Body := (two_entries_body, None) |}
              two_entries_body [JObj []; JObj []]) as [Hok _].
  - reflexivity.
  - reflexivity.
  - vm_compute. reflexivity.
  - apply (Hok [zeroLastPush; zeroLastPush]). reflexivity.
Defined.
